(** * mcpe_downloader.py: the direct-link extractor, embedded and verified

    A shallow embedding of [src/mcpe_downloader.py].

    - Python [str] values are Rocq [string]s.  Markup is read as a sequence of
      code points below 256 (one [ascii] per code point); the fixed status
      messages are carried as the text of the source.
    - The third-party libraries the script calls (BeautifulSoup's
      [html.parser], [urllib.parse.urljoin]) are fields of a record [Libs];
      the iteration order of a Python [set], which depends on the hash seed
      of the process, is a record [HashOrder].
    - Everything outside the process (HTTP server, clock, Selenium, Chrome)
      is an oracle record [World]; the methods run in a small state and
      exception monad that logs every observable action in a trace.
    - The two standard streams are taken to accept every line (an encoding
      that has the symbols of the messages, a reader that is still there):
      [print] writes and returns. *)

From Stdlib Require Import String Ascii List Bool Arith ZArith Lia Permutation.
From Stdlib Require Import DecimalString.
Import ListNotations.
Local Open Scope string_scope.

(* ===================================================================== *)
(** ** Python string primitives *)
(* ===================================================================== *)

Module PyStr.

(** The double quote, written by code so that no literal has to escape it. *)
Definition dq : string := String (ascii_of_nat 34) EmptyString.

(** [s.startswith(p)] *)
Fixpoint startswith (s p : string) : bool :=
  match p, s with
  | EmptyString, _ => true
  | String a p', String b s' => Ascii.eqb a b && startswith s' p'
  | String _ _, EmptyString => false
  end.

(** [s[n:]] *)
Fixpoint drop (n : nat) (s : string) : string :=
  match n, s with
  | O, _ => s
  | S k, String _ s' => drop k s'
  | S _, EmptyString => EmptyString
  end.

(** [s.endswith(p)] *)
Definition endswith (s p : string) : bool :=
  (String.length p <=? String.length s)%nat
  && String.eqb (drop (String.length s - String.length p) s) p.

(** [p in s] for strings: [p] occurs as a contiguous substring of [s]. *)
Fixpoint contains (s p : string) : bool :=
  startswith s p ||
  match s with
  | EmptyString => false
  | String _ s' => contains s' p
  end.

(** [str.lower] on code points below 256: [A-Z] and the Latin-1 capitals
    (U+00C0..U+00DE except the multiplication sign U+00D7) move up by 32. *)
Definition lower_char (c : ascii) : ascii :=
  let n := nat_of_ascii c in
  if (((65 <=? n) && (n <=? 90))
      || ((192 <=? n) && (n <=? 222) && negb (n =? 215)))%nat
  then ascii_of_nat (n + 32) else c.

Fixpoint lower (s : string) : string :=
  match s with
  | EmptyString => EmptyString
  | String c s' => String (lower_char c) (lower s')
  end.

(** Truth value of a string in a condition: non-empty. *)
Definition truthy (s : string) : bool :=
  match s with EmptyString => false | String _ _ => true end.

(** [x in l] for a list of strings. *)
Definition mem (x : string) (l : list string) : bool :=
  existsb (String.eqb x) l.

End PyStr.

(* ===================================================================== *)
(** ** The artifact pattern of [_extract_direct_links_from_html]

    The pattern is the literal [https://mcpedl.org/uploads_files/], then a
    greedy star over the class of characters that are neither a quote (double
    or single), nor white space, nor an angle bracket, then the literal
    [.apk]; it is searched with [re.findall]. *)
(* ===================================================================== *)

Module Pattern.

Definition prefix : string := "https://mcpedl.org/uploads_files/".
Definition suffix : string := ".apk".

(** [\s] of a [str] pattern, on code points below 256. *)
Definition is_space (c : ascii) : bool :=
  let n := nat_of_ascii c in
  (((9 <=? n) && (n <=? 13)) || ((28 <=? n) && (n <=? 32))
   || (n =? 133) || (n =? 160))%nat.

(** The negated class of the pattern: no double quote (34), no single quote
    (39), no white space, no [<] (60), no [>] (62). *)
Definition path_char (c : ascii) : bool :=
  let n := nat_of_ascii c in
  negb ((n =? 34) || (n =? 39) || is_space c || (n =? 60) || (n =? 62))%nat.

(** The maximal run the greedy star consumes. *)
Fixpoint take_path (s : string) : string :=
  match s with
  | EmptyString => EmptyString
  | String c s' => if path_char c then String c (take_path s') else EmptyString
  end.

(** Backtracking of the star: the longest prefix of the run that ends with
    [.apk] (all four characters of the suffix belong to the class, so the
    suffix always lies inside the run). *)
Fixpoint longest_apk (run : string) : option string :=
  match run with
  | EmptyString => None
  | String c r =>
      match longest_apk r with
      | Some m => Some (String c m)
      | None => if PyStr.startswith run suffix then Some suffix else None
      end
  end.

(** One match attempt anchored at the head of [s]. *)
Definition match_here (s : string) : option string :=
  if PyStr.startswith s prefix then
    match longest_apk (take_path (PyStr.drop (String.length prefix) s)) with
    | Some m => Some (prefix ++ m)
    | None => None
    end
  else None.

(** [re.findall(pattern, s)]: leftmost matches, left to right, the scan
    resuming where the previous match ended.  [skip] counts the characters
    of the last match still to be passed over. *)
Fixpoint findall_from (skip : nat) (s : string) : list string :=
  match s with
  | EmptyString => []
  | String c s' =>
      match skip with
      | S k => findall_from k s'
      | O =>
          match match_here s with
          | Some m => m :: findall_from (String.length m - 1) s'
          | None => findall_from 0 s'
          end
      end
  end.

Definition findall (s : string) : list string := findall_from 0 s.

(** A string has the artifact shape when the pattern matches all of it. *)
Definition is_match (u : string) : bool :=
  match match_here u with
  | Some m => String.eqb m u
  | None => false
  end.

End Pattern.

(* ===================================================================== *)
(** ** Exceptions and outcomes of calls *)
(* ===================================================================== *)

(** The exception classes the script distinguishes.  [KeyboardInterrupt] and
    [SystemExit] derive from [BaseException] only, so that a handler
    [except Exception] lets them through. *)
Inductive exn : Type :=
| ImportError (msg : string)
| RequestException (msg : string)
| OtherException (msg : string)
| KeyboardInterrupt
| SystemExit (code : Z).

Definition is_Exception (e : exn) : bool :=
  match e with
  | KeyboardInterrupt | SystemExit _ => false
  | _ => true
  end.

Definition is_RequestException (e : exn) : bool :=
  match e with RequestException _ => true | _ => false end.

(** [str(e)], as interpolated by the f-strings of the handlers. *)
Definition exn_str (e : exn) : string :=
  match e with
  | ImportError m | RequestException m | OtherException m => m
  | KeyboardInterrupt => ""
  | SystemExit _ => ""
  end.

Inductive outcome (A : Type) : Type :=
| Ret (a : A)
| Raise (e : exn).
Arguments Ret {A} a.
Arguments Raise {A} e.

(* ===================================================================== *)
(** ** Library interfaces *)
(* ===================================================================== *)

(** What the script uses of BeautifulSoup and urllib.  Each call returns or
    raises: the parser rejects some markup, [urljoin] rejects some
    references (an authority with an unbalanced bracket, for one).
    - [a_hrefs html] is [[link['href'] for link in
      BeautifulSoup(html, 'html.parser').find_all('a', href=True)]];
    - [get_text html] is [BeautifulSoup(html, 'html.parser').get_text()];
    - [urljoin base href] is [urllib.parse.urljoin(base, href)]. *)
Record Libs : Type := {
  a_hrefs : string -> outcome (list string);
  get_text : string -> outcome string;
  urljoin : string -> string -> outcome string
}.

(** [list(set(l))]: the elements of [l], each once, in the order in which the
    set's hash table is walked.  String hashes are salted per process, so the
    order is a parameter of the run; only the contract of a set is fixed. *)
Record HashOrder : Type := {
  list_of_set : list string -> list string;
  list_of_set_NoDup : forall l, NoDup (list_of_set l);
  list_of_set_In : forall l x, In x (list_of_set l) <-> In x l
}.

(* ===================================================================== *)
(** ** [_extract_direct_links_from_html] *)
(* ===================================================================== *)

Section Scan.

Variable L : Libs.

(** The [for link in soup.find_all('a', href=True)] loop, threading [links].
    An exception of [urljoin] ends the loop and leaves the function. *)
Fixpoint anchor_loop (base_url : string) (hrefs : list string)
         (links : list string) : outcome (list string) :=
  match hrefs with
  | [] => Ret links
  | href :: rest =>
      if PyStr.endswith href ".apk" then
        match urljoin L base_url href with
        | Ret full_url =>
            if negb (PyStr.mem full_url links)
            then anchor_loop base_url rest (links ++ [full_url])%list
            else anchor_loop base_url rest links
        | Raise e => Raise e
        end
      else anchor_loop base_url rest links
  end.

(** The local [links] just before the final [list(set(links))].  The markup
    is parsed first, before the pattern is searched: a markup the parser
    rejects leaves the function there. *)
Definition collected_links (html_content base_url : string)
  : outcome (list string) :=
  match a_hrefs L html_content with
  | Ret hrefs =>
      let links : list string := [] in
      let matches := Pattern.findall html_content in
      let links :=
        match matches with [] => links | _ => (links ++ matches)%list end in
      anchor_loop base_url hrefs links
  | Raise e => Raise e
  end.

Variable H : HashOrder.

Definition _extract_direct_links_from_html
           (html_content base_url : string) : outcome (list string) :=
  match collected_links html_content base_url with
  | Ret links => Ret (list_of_set H links)
  | Raise e => Raise e
  end.

End Scan.

(* ===================================================================== *)
(** ** Observable events and the outside world *)
(* ===================================================================== *)

Inductive stream : Type := Stdout | Stderr.

(** Everything the process does that can be seen from outside, in order. *)
Inductive event : Type :=
| EvPrint (f : stream) (line : string)
| EvHttpGet (url : string) (timeout : nat)
| EvSleep (seconds : nat)
| EvImportSelenium
| EvChromeStart
| EvDriverGet (url : string)
| EvPageSource
| EvDriverQuit.

Record Response : Type := {
  status_code : nat;
  reason : string;
  resp_url : string;
  text : string
}.

(** The answers of the environment.  The [n]-th call of [session.get] and
    the [n]-th call of [time.sleep] are answered by index; a call either
    returns or raises (a network failure, a signal arriving while blocked). *)
Record World : Type := {
  http_get : nat -> string -> outcome Response;
  sleep : nat -> nat -> outcome unit;
  import_selenium : outcome unit;
  chrome_start : outcome unit;
  driver_get : string -> outcome unit;
  page_source : outcome string;
  driver_quit : outcome unit
}.

Inductive WebDriver : Type := Chrome.

(** The fields of [MCPEDownloadExtractor] the methods read and write, and the
    number of calls already answered by the world. *)
Record State : Type := {
  use_selenium : bool;
  driver : option WebDriver;
  gets : nat;
  sleeps : nat
}.

Definition set_use_selenium (b : bool) (s : State) : State :=
  {| use_selenium := b; driver := driver s; gets := gets s; sleeps := sleeps s |}.
Definition set_driver (d : option WebDriver) (s : State) : State :=
  {| use_selenium := use_selenium s; driver := d; gets := gets s; sleeps := sleeps s |}.
Definition tick_gets (s : State) : State :=
  {| use_selenium := use_selenium s; driver := driver s; gets := S (gets s); sleeps := sleeps s |}.
Definition tick_sleeps (s : State) : State :=
  {| use_selenium := use_selenium s; driver := driver s; gets := gets s; sleeps := S (sleeps s) |}.

(* ===================================================================== *)
(** ** The monad of the methods: state, exceptions, trace *)
(* ===================================================================== *)

Definition M (A : Type) : Type := State -> outcome A * State * list event.

Definition ret {A} (a : A) : M A := fun s => (Ret a, s, []).

Definition bind {A B} (m : M A) (k : A -> M B) : M B :=
  fun s =>
    match m s with
    | (Ret a, s1, t1) =>
        match k a s1 with
        | (r, s2, t2) => (r, s2, (t1 ++ t2)%list)
        end
    | (Raise e, s1, t1) => (Raise e, s1, t1)
    end.

Declare Scope py_scope.
Delimit Scope py_scope with py.
Notation "x <- m ;; k" := (bind m (fun x => k))
  (at level 61, m at next level, right associativity) : py_scope.
Notation "m ;; k" := (bind m (fun _ => k))
  (at level 61, right associativity) : py_scope.
Local Open Scope py_scope.

Definition raise {A} (e : exn) : M A := fun s => (Raise e, s, []).
Definition emit (ev : event) : M unit := fun s => (Ret tt, s, [ev]).
Definition get_state : M State := fun s => (Ret s, s, []).
Definition modify (f : State -> State) : M unit := fun s => (Ret tt, f s, []).

(** Lifting an answer of the world. *)
Definition answer {A} (o : outcome A) : M A := fun s => (o, s, []).

(** [try: body / except ...: handler].  [handler e] is [None] when no
    [except] clause matches [e], which then propagates. *)
Definition try_except {A} (body : M A) (handler : exn -> option (M A)) : M A :=
  fun s =>
    match body s with
    | (Ret a, s1, t1) => (Ret a, s1, t1)
    | (Raise e, s1, t1) =>
        match handler e with
        | Some h =>
            match h s1 with
            | (r, s2, t2) => (r, s2, (t1 ++ t2)%list)
            end
        | None => (Raise e, s1, t1)
        end
    end.

(** [try: body / finally: fin].  The [finally] block runs on every way out of
    [body]; if it raises, its exception replaces the pending outcome. *)
Definition try_finally {A} (body : M A) (fin : M unit) : M A :=
  fun s =>
    match body s with
    | (r, s1, t1) =>
        match fin s1 with
        | (Ret _, s2, t2) => (r, s2, (t1 ++ t2)%list)
        | (Raise e, s2, t2) => (Raise e, s2, (t1 ++ t2)%list)
        end
    end.

(** [print(line)] and [print(line, file=sys.stderr)]. *)
Definition print (line : string) : M unit := emit (EvPrint Stdout line).
Definition eprint (line : string) : M unit := emit (EvPrint Stderr line).

(** [sys.exit(code)] *)
Definition sys_exit {A} (code : Z) : M A := raise (SystemExit code).

(** Decimal rendering of a number inside an f-string. *)
Definition str_of_nat (n : nat) : string :=
  DecimalString.NilZero.string_of_uint (Nat.to_uint n).

(* ===================================================================== *)
(** ** The class [MCPEDownloadExtractor] and [main] *)
(* ===================================================================== *)

Section Program.

Variable L : Libs.
Variable H : HashOrder.
Variable W : World.

(** [self.session.get(url, timeout=...)] *)
Definition session_get (url : string) (timeout : nat) : M Response :=
  s <- get_state ;;
  emit (EvHttpGet url timeout) ;;
  modify tick_gets ;;
  answer (http_get W (gets s) url).

(** [time.sleep(seconds)] *)
Definition time_sleep (seconds : nat) : M unit :=
  s <- get_state ;;
  emit (EvSleep seconds) ;;
  modify tick_sleeps ;;
  answer (sleep W (sleeps s) seconds).

(** [response.raise_for_status()] of the requests library: an [HTTPError]
    (a [RequestException]) for the 4xx and 5xx codes. *)
Definition raise_for_status (r : Response) : M unit :=
  if ((400 <=? status_code r) && (status_code r <? 500))%nat then
    raise (RequestException
             (str_of_nat (status_code r) ++ " Client Error: " ++ reason r
              ++ " for url: " ++ resp_url r))
  else if ((500 <=? status_code r) && (status_code r <? 600))%nat then
    raise (RequestException
             (str_of_nat (status_code r) ++ " Server Error: " ++ reason r
              ++ " for url: " ++ resp_url r))
  else ret tt.

(** The words looked for in the lower-cased page text. *)
Definition timer_words : list string :=
  ["timer"; "countdown"; "please wait"; "seconds"].

(** [any(word in page_text_lower for word in [...])] *)
Definition timer_detected (page_text_lower : string) : bool :=
  existsb (fun word => PyStr.contains page_text_lower word) timer_words.

(** [__init__]: [self.use_selenium = use_selenium; self.driver = None]. *)
Definition __init__ (use_selenium_flag : bool) : M unit :=
  modify (set_use_selenium use_selenium_flag) ;;
  modify (set_driver None).

Definition setup_driver : M unit :=
  imported <-
    try_except
      (emit EvImportSelenium ;; answer (import_selenium W) ;; ret true)
      (fun e =>
         match e with
         | ImportError _ =>
             Some (print "❌ Selenium library not found. Please install it with 'pip install selenium'." ;;
                   print "   Note: Selenium is not recommended for Termux as it requires a graphical browser." ;;
                   modify (set_use_selenium false) ;;
                   ret false)
         | _ => None
         end) ;;
  if negb imported then ret tt else
  s <- get_state ;;
  match driver s with
  | Some _ => ret tt
  | None =>
      try_except
        (emit EvChromeStart ;;
         answer (chrome_start W) ;;
         modify (set_driver (Some Chrome)) ;;
         print "✅ Selenium WebDriver initialized")
        (fun e =>
           if is_Exception e then
             Some (print ("❌ Failed to initialize WebDriver: " ++ exn_str e) ;;
                   print "   Note: You need to install a compatible ChromeDriver for Selenium to work." ;;
                   modify (set_use_selenium false))
           else None)
  end.

Definition close_driver : M unit :=
  s <- get_state ;;
  match driver s with
  | Some _ =>
      emit EvDriverQuit ;;
      answer (driver_quit W) ;;
      modify (set_driver None)
  | None => ret tt
  end.

Definition _get_download_link_requests (url : string) : M (option string) :=
  try_except
    (print "⚙️ Using requests/BeautifulSoup method (Termux friendly)" ;;
     response <- session_get url 15 ;;
     raise_for_status response ;;
     direct_links <-
       answer (_extract_direct_links_from_html L H (text response) url) ;;
     match direct_links with
     | link0 :: _ =>
         print "✅ Found direct link immediately." ;;
         ret (Some link0)
     | [] =>
         page_text <- answer (get_text L (text response)) ;;
         let page_text_lower := PyStr.lower page_text in
         found <-
           (if timer_detected page_text_lower then
              let wait_time := 12 in
              print ("⏱️ Timer detected. Waiting for " ++ str_of_nat wait_time
                     ++ " seconds to simulate countdown...") ;;
              time_sleep wait_time ;;
              print "🔄 Re-fetching page after wait..." ;;
              response2 <- session_get url 15 ;;
              direct_links2 <-
                answer (_extract_direct_links_from_html L H
                          (text response2) url) ;;
              match direct_links2 with
              | link0 :: _ =>
                  print "✅ Found direct link after waiting." ;;
                  ret (Some link0)
              | [] => ret None
              end
            else ret None) ;;
         match found with
         | Some link => ret (Some link)
         | None =>
             print "❌ Could not find a direct link." ;;
             ret None
         end
     end)
    (fun e =>
       if is_RequestException e then
         Some (print ("❌ Network error: " ++ exn_str e) ;; ret None)
       else if is_Exception e then
         Some (print ("❌ An error occurred in the requests method: " ++ exn_str e) ;;
               ret None)
       else None).

Definition _get_download_link_selenium (url : string) : M (option string) :=
  try_except
    (setup_driver ;;
     s <- get_state ;;
     if match driver s with None => true | Some _ => false end
        || negb (use_selenium s)
     then
       print "⚠️ Selenium not available. Falling back to requests method..." ;;
       _get_download_link_requests url
     else
       print "🌐 Loading page with Selenium..." ;;
       emit (EvDriverGet url) ;;
       answer (driver_get W url) ;;
       let max_wait_time := 15 in
       print ("⏳ Waiting up to " ++ str_of_nat max_wait_time
              ++ " seconds for download link...") ;;
       time_sleep max_wait_time ;;
       emit EvPageSource ;;
       page_src <- answer (page_source W) ;;
       direct_links <-
         answer (_extract_direct_links_from_html L H page_src url) ;;
       match direct_links with
       | link0 :: _ =>
           print "✅ Found link with Selenium." ;;
           ret (Some link0)
       | [] =>
           print "❌ Could not extract download link using Selenium" ;;
           ret None
       end)
    (fun e =>
       if is_Exception e then
         Some (print ("❌ Selenium method failed: " ++ exn_str e) ;; ret None)
       else None).

Definition get_download_link (url : string) : M (option string) :=
  try_except
    (print ("🔍 Analyzing: " ++ url) ;;
     s <- get_state ;;
     if use_selenium s
     then _get_download_link_selenium url
     else _get_download_link_requests url)
    (fun e =>
       if is_Exception e then
         Some (print ("❌ Unexpected error: " ++ exn_str e) ;; ret None)
       else None).

(** Truth value of [download_link], a string or [None]. *)
Definition link_truthy (o : option string) : bool :=
  match o with Some u => PyStr.truthy u | None => false end.

(** [main], with [sys.argv] as its argument. *)
Definition main (argv : list string) : M unit :=
  if (List.length argv <? 2)%nat then
    print "Usage: python mcpe_downloader.py <URL>" ;;
    print "Example: python mcpe_downloader.py https://mcpedl.org/getfile/5916" ;;
    sys_exit 1
  else
    let url := nth 1 argv "" in
    if negb (PyStr.startswith url "http") then
      print "Error: URL must start with http:// or https://" ;;
      sys_exit 1
    else
      let use_selenium_flag :=
        (2 <? List.length argv)%nat
        && PyStr.mem (nth 2 argv "") ["-s"; "--selenium"] in
      __init__ use_selenium_flag ;;
      try_finally
        (try_except
           (download_link <- get_download_link url ;;
            if link_truthy download_link then
              print (match download_link with Some u => u | None => "" end)
            else
              eprint "❌ No download link found." ;;
              sys_exit 1)
           (fun e =>
              match e with
              | KeyboardInterrupt =>
                  Some (eprint (String (ascii_of_nat 10)
                                  "⏹️ Process interrupted by user.") ;;
                        sys_exit 1)
              | _ =>
                  if is_Exception e then
                    Some (eprint ("❌ An unexpected error occurred: " ++ exn_str e) ;;
                          sys_exit 1)
                  else None
              end))
        close_driver.

End Program.

(** The state in which the interpreter enters [main]. *)
Definition start : State :=
  {| use_selenium := false; driver := None; gets := 0; sleeps := 0 |}.

(** The exit status of the process, from the way [main] ends: [0] on a plain
    return, the code of a [SystemExit], [1] for an exception nobody caught
    (shown with its traceback), [130] for an interrupt nobody caught. *)
Definition exit_code (r : outcome unit) : Z :=
  match r with
  | Ret _ => 0
  | Raise (SystemExit c) => c
  | Raise KeyboardInterrupt => 130
  | Raise _ => 1
  end%Z.

Definition run_program (L : Libs) (H : HashOrder) (W : World)
           (argv : list string) : outcome unit * State * list event :=
  main L H W argv start.

(** The lines written to one of the two streams. *)
Fixpoint lines_on (f : stream) (tr : list event) : list string :=
  match tr with
  | [] => []
  | EvPrint g line :: rest =>
      match f, g with
      | Stdout, Stdout | Stderr, Stderr => line :: lines_on f rest
      | _, _ => lines_on f rest
      end
  | _ :: rest => lines_on f rest
  end.

(** The actions of a run other than printing. *)
Fixpoint actions (tr : list event) : list event :=
  match tr with
  | [] => []
  | EvPrint _ _ :: rest => actions rest
  | ev :: rest => ev :: actions rest
  end.

(* ===================================================================== *)
(** ** Vocabulary of the statements *)
(* ===================================================================== *)

(** The status codes for which [raise_for_status] raises. *)
Definition http_error (r : Response) : bool :=
  ((400 <=? status_code r) && (status_code r <? 600))%nat.

(** A link the anchor scan derives from the page. *)
Definition anchor_derived (L : Libs) (html_content base_url u : string) : Prop :=
  exists hrefs href,
    a_hrefs L html_content = Ret hrefs
    /\ In href hrefs
    /\ PyStr.endswith href ".apk" = true
    /\ urljoin L base_url href = Ret u.

(** A link that only the anchor scan finds. *)
Definition anchor_only (L : Libs) (html_content base_url u : string) : Prop :=
  anchor_derived L html_content base_url u
  /\ ~ In u (Pattern.findall html_content).

(** What a method makes of the outcome of a scan run inside its [try]: the
    first candidate; not-found for an empty list; not-found again when the
    scan raised an [Exception], which the method's handler reports; and the
    exception itself when it is one [except Exception] lets through. *)
Definition first_candidate (scan : outcome (list string))
  : outcome (option string) :=
  match scan with
  | Ret links => Ret (hd_error links)
  | Raise e => if is_Exception e then Ret None else Raise e
  end.

(** The elements of a list, each once, a chosen one first when it is there. *)
Definition put_first (x : string) (l : list string) : list string :=
  if in_dec string_dec x l
  then x :: filter (fun y => negb (String.eqb y x)) (nodup string_dec l)
  else nodup string_dec l.

(** The browser cannot be acquired: the Selenium import fails with
    [ImportError], or it succeeds and starting Chrome raises an exception. *)
Definition browser_unavailable (W : World) : Prop :=
  (exists msg, import_selenium W = Raise (ImportError msg))
  \/ (import_selenium W = Ret tt
      /\ exists e, chrome_start W = Raise e /\ is_Exception e = true).

(** What is printed and tried before the fallback starts. *)
Definition fallback_prelude (W : World) : list event :=
  match import_selenium W with
  | Ret _ =>
      [EvImportSelenium; EvChromeStart;
       EvPrint Stdout
         ("❌ Failed to initialize WebDriver: "
          ++ match chrome_start W with Raise e => exn_str e | Ret _ => "" end);
       EvPrint Stdout
         "   Note: You need to install a compatible ChromeDriver for Selenium to work.";
       EvPrint Stdout "⚠️ Selenium not available. Falling back to requests method..."]
  | Raise _ =>
      [EvImportSelenium;
       EvPrint Stdout
         "❌ Selenium library not found. Please install it with 'pip install selenium'.";
       EvPrint Stdout
         "   Note: Selenium is not recommended for Termux as it requires a graphical browser.";
       EvPrint Stdout "⚠️ Selenium not available. Falling back to requests method..."]
  end.

(** Page loads of a trace: plain requests and browser navigations. *)
Fixpoint page_loads (tr : list event) : list string :=
  match tr with
  | [] => []
  | EvHttpGet url _ :: rest => url :: page_loads rest
  | EvDriverGet url :: rest => url :: page_loads rest
  | _ :: rest => page_loads rest
  end.

(** What a trace holds after its first sleep of the given length. *)
Fixpoint after_sleep (seconds : nat) (tr : list event) : list event :=
  match tr with
  | [] => []
  | EvSleep n :: rest =>
      if (n =? seconds)%nat then rest else after_sleep seconds rest
  | _ :: rest => after_sleep seconds rest
  end.

(** The behaviour a countdown page would get on the browser path if that path
    followed the wait-and-retry rule of the plain-fetch path: when the
    rendered page has no candidate and shows a countdown word, a sleep of 15
    is followed by one more load of the same URL. *)
Definition browser_refetches_after_wait (L : Libs) (H : HashOrder) (W : World)
           (url : string) (s : State) : Prop :=
  forall page page_text,
    page_source W = Ret page ->
    _extract_direct_links_from_html L H page url = Ret [] ->
    get_text L page = Ret page_text ->
    timer_detected (PyStr.lower page_text) = true ->
    let '(_, _, tr) := _get_download_link_selenium L H W url s in
    page_loads (after_sleep 15 tr) = [url].

(** Whether a browser process is running at the end of a trace, given whether
    one was running at its start: a successful start of Chrome leaves one
    running, a call of [driver.quit()] leaves none. *)
Fixpoint browser_live (W : World) (live : bool) (tr : list event) : bool :=
  match tr with
  | [] => live
  | EvChromeStart :: rest =>
      browser_live W
        (match chrome_start W with Ret _ => true | Raise _ => live end) rest
  | EvDriverQuit :: rest => browser_live W false rest
  | _ :: rest => browser_live W live rest
  end.

Definition has_driver (s : State) : bool :=
  match driver s with Some _ => true | None => false end.

(** The extractor as [main] builds it from the command line: the browser
    path is on when the third argument is one of the two flags, and no
    driver is held yet. *)
Definition constructed (argv : list string) : State :=
  set_driver None
    (set_use_selenium
       ((2 <? List.length argv)%nat
        && PyStr.mem (nth 2 argv "") ["-s"; "--selenium"])
       start).

(* ===================================================================== *)
(** ** Sample libraries, hash orders and worlds

    Small stand-ins used to run the program on concrete pages.  The parser
    reads anchors written as [<a href=...>] with a double-quoted value and
    takes as text whatever lies outside tags; the join handles absolute and
    root-relative references and, like [urljoin], raises [ValueError] on an
    absolute reference whose authority has an unbalanced bracket.  On the
    pages below they do what [html.parser] and [urljoin] do. *)
(* ===================================================================== *)

Module Sample.

Definition is_dq (c : ascii) : bool := (nat_of_ascii c =? 34)%nat.
Definition is_lt (c : ascii) : bool := (nat_of_ascii c =? 60)%nat.
Definition is_gt (c : ascii) : bool := (nat_of_ascii c =? 62)%nat.
Definition is_slash (c : ascii) : bool := (nat_of_ascii c =? 47)%nat.

Fixpoint until (stop : ascii -> bool) (s : string) : string :=
  match s with
  | EmptyString => EmptyString
  | String c s' => if stop c then EmptyString else String c (until stop s')
  end.

Definition a_open : string := "<a href=" ++ PyStr.dq.

Fixpoint a_hrefs (html : string) : list string :=
  match html with
  | EmptyString => []
  | String _ rest =>
      if PyStr.startswith html a_open
      then until is_dq (PyStr.drop (String.length a_open) html) :: a_hrefs rest
      else a_hrefs rest
  end.

Fixpoint strip_tags (in_tag : bool) (html : string) : string :=
  match html with
  | EmptyString => EmptyString
  | String c rest =>
      if in_tag then strip_tags (negb (is_gt c)) rest
      else if is_lt c then strip_tags true rest
      else String c (strip_tags false rest)
  end.

Definition get_text (html : string) : string := strip_tags false html.

(** Scheme and authority of an absolute URL. *)
Fixpoint origin (url : string) : string :=
  match url with
  | EmptyString => EmptyString
  | String c rest =>
      if PyStr.startswith url "://"
      then "://" ++ until is_slash (PyStr.drop 3 url)
      else String c (origin rest)
  end.

(** What follows the scheme of an absolute URL, up to the path. *)
Fixpoint authority (url : string) : string :=
  match url with
  | EmptyString => EmptyString
  | String _ rest =>
      if PyStr.startswith url "://"
      then until is_slash (PyStr.drop 3 url)
      else authority rest
  end.

Definition urljoin (base href : string) : outcome string :=
  if PyStr.contains href "://" then
    if xorb (PyStr.contains (authority href) "[")
            (PyStr.contains (authority href) "]")
    then Raise (OtherException "Invalid IPv6 URL")
    else Ret href
  else if PyStr.startswith href "/" then Ret (origin base ++ href)
  else Ret href.

Definition libs : Libs :=
  Build_Libs (fun html => Ret (a_hrefs html)) (fun html => Ret (get_text html))
             urljoin.

(** A process whose sets are walked in page order (an element met twice
    stands where it was met last). *)
Definition first_seen : HashOrder :=
  {| list_of_set := nodup string_dec;
     list_of_set_NoDup := NoDup_nodup string_dec;
     list_of_set_In := fun l x => nodup_In string_dec l x |}.

Lemma rev_nodup_NoDup (l : list string) : NoDup (rev (nodup string_dec l)).
Proof. apply NoDup_rev, NoDup_nodup. Qed.

Lemma rev_nodup_In (l : list string) (x : string) :
  In x (rev (nodup string_dec l)) <-> In x l.
Proof. rewrite <- in_rev. apply nodup_In. Qed.

(** A process whose hash seed walks the same sets the other way round. *)
Definition reversed : HashOrder :=
  {| list_of_set := fun l => rev (nodup string_dec l);
     list_of_set_NoDup := rev_nodup_NoDup;
     list_of_set_In := rev_nodup_In |}.

Definition page_url : string := "https://mcpedl.org/getfile/5916".

Definition ok (body : string) : Response :=
  {| status_code := 200; reason := "OK"; resp_url := page_url; text := body |}.

Definition not_found (body : string) : Response :=
  {| status_code := 404; reason := "Not Found"; resp_url := page_url; text := body |}.

(** A machine without Selenium whose server answers the first two requests
    as given and then stops answering. *)
Definition served (first second : outcome Response) : World :=
  {| http_get := fun n _ =>
       match n with
       | 0 => first
       | 1 => second
       | _ => Raise (RequestException "Connection refused")
       end;
     sleep := fun _ _ => Ret tt;
     import_selenium := Raise (ImportError "No module named 'selenium'");
     chrome_start := Raise (OtherException "chromedriver not found");
     driver_get := fun _ => Raise (OtherException "no browser");
     page_source := Raise (OtherException "no browser");
     driver_quit := Ret tt |}.

(** A machine with Selenium and Chrome; the rendered page is [rendered] and
    the [n]-th sleep ends as [sleep_end n] says. *)
Definition browsing (rendered : string) (sleep_end : nat -> outcome unit)
           (http : outcome Response) : World :=
  {| http_get := fun _ _ => http;
     sleep := fun n _ => sleep_end n;
     import_selenium := Ret tt;
     chrome_start := Ret tt;
     driver_get := fun _ => Ret tt;
     page_source := Ret rendered;
     driver_quit := Ret tt |}.

(** A machine with Selenium installed but no usable ChromeDriver. *)
Definition no_chromedriver (first second : outcome Response) : World :=
  {| http_get := http_get (served first second);
     sleep := fun _ _ => Ret tt;
     import_selenium := Ret tt;
     chrome_start := Raise (OtherException "chromedriver not found");
     driver_get := fun _ => Raise (OtherException "no browser");
     page_source := Raise (OtherException "no browser");
     driver_quit := Ret tt |}.

Definition artifact : string := "https://mcpedl.org/uploads_files/x/game.apk".

(** Scenario 1 of the specification. *)
Definition page_direct : string :=
  "<a href=" ++ PyStr.dq ++ artifact ++ PyStr.dq ++ ">dl</a>".

(** Scenario 2 of the specification: the countdown page and what the server
    sends afterwards. *)
Definition page_wait : string := "Please wait 10 seconds...".
Definition page_after_wait : string :=
  "<a href=" ++ PyStr.dq ++ "/files/app.apk" ++ PyStr.dq ++ ">go</a>".

(** A page showing the artifact URL in its text next to a mirror anchor. *)
Definition page_both : string :=
  "<p>" ++ artifact ++ "</p><a href=" ++ PyStr.dq ++ "/files/app.apk"
  ++ PyStr.dq ++ ">mirror</a>".

Definition page_plain : string := "<p>Nothing to download here.</p>".

(** A page that shows the artifact URL and also holds an anchor that
    [urljoin] rejects. *)
Definition page_bad_anchor : string :=
  "<p>" ++ artifact ++ "</p><a href=" ++ PyStr.dq ++ "http://[x.apk"
  ++ PyStr.dq ++ ">broken</a>".

End Sample.

(* ===================================================================== *)
(** ** The embedding at work *)
(* ===================================================================== *)

(** The star is greedy and backtracks to the last [.apk] of its run; a quote
    ends the run; a match is not searched again for another one. *)
Example findall_greedy :
  Pattern.findall
    ("see https://mcpedl.org/uploads_files/a/b.apk.apk.zip' and "
     ++ "https://mcpedl.org/uploads_files/c.apk" ++ PyStr.dq ++ " and "
     ++ "https://mcpedl.org/uploads_files/no-suffix")
  = ["https://mcpedl.org/uploads_files/a/b.apk.apk";
     "https://mcpedl.org/uploads_files/c.apk"].
Proof. vm_compute. reflexivity. Qed.

Example endswith_apk :
  PyStr.endswith "/files/app.apk" ".apk" = true
  /\ PyStr.endswith "apk" ".apk" = false
  /\ PyStr.endswith "/files/app.apk?x=1" ".apk" = false.
Proof. vm_compute. repeat split. Qed.

Example timer_detected_on_wait_page :
  timer_detected (PyStr.lower (Sample.get_text Sample.page_wait)) = true
  /\ timer_detected (PyStr.lower (Sample.get_text Sample.page_plain)) = false.
Proof. vm_compute. split; reflexivity. Qed.

(** Scenario 1 of the specification: the link is on the first page. *)
Example scenario_direct :
  run_program Sample.libs Sample.first_seen
    (Sample.served (Ret (Sample.ok Sample.page_direct))
                   (Ret (Sample.ok Sample.page_plain)))
    ["mcpe_downloader.py"; Sample.page_url]
  = (Ret tt, tick_gets start,
     [EvPrint Stdout "🔍 Analyzing: https://mcpedl.org/getfile/5916";
      EvPrint Stdout "⚙️ Using requests/BeautifulSoup method (Termux friendly)";
      EvHttpGet Sample.page_url 15;
      EvPrint Stdout "✅ Found direct link immediately.";
      EvPrint Stdout "https://mcpedl.org/uploads_files/x/game.apk"]).
Proof. vm_compute. reflexivity. Qed.

(** Scenario 2 of the specification: a countdown page, then the link. *)
Example scenario_countdown :
  run_program Sample.libs Sample.first_seen
    (Sample.served (Ret (Sample.ok Sample.page_wait))
                   (Ret (Sample.ok Sample.page_after_wait)))
    ["mcpe_downloader.py"; Sample.page_url]
  = (Ret tt, tick_gets (tick_sleeps (tick_gets start)),
     [EvPrint Stdout "🔍 Analyzing: https://mcpedl.org/getfile/5916";
      EvPrint Stdout "⚙️ Using requests/BeautifulSoup method (Termux friendly)";
      EvHttpGet Sample.page_url 15;
      EvPrint Stdout
        "⏱️ Timer detected. Waiting for 12 seconds to simulate countdown...";
      EvSleep 12;
      EvPrint Stdout "🔄 Re-fetching page after wait...";
      EvHttpGet Sample.page_url 15;
      EvPrint Stdout "✅ Found direct link after waiting.";
      EvPrint Stdout "https://mcpedl.org/files/app.apk"]).
Proof. vm_compute. reflexivity. Qed.

(** A server that cannot be reached: the failure is reported and the program
    ends with status 1. *)
Example scenario_unreachable :
  let '(r, _, tr) :=
    run_program Sample.libs Sample.first_seen
      (Sample.served (Raise (RequestException "Connection refused"))
                     (Ret (Sample.ok Sample.page_plain)))
      ["mcpe_downloader.py"; Sample.page_url] in
  exit_code r = 1%Z
  /\ lines_on Stderr tr = ["❌ No download link found."]
  /\ actions tr = [EvHttpGet Sample.page_url 15].
Proof. vm_compute. repeat split. Qed.

(** A page that shows the artifact URL and holds an anchor [urljoin]
    rejects: the scan raises although the pattern had a match, the handler
    of the method reports it, and the program ends with status 1. *)
Example scenario_bad_anchor :
  Pattern.findall Sample.page_bad_anchor = [Sample.artifact]
  /\ _extract_direct_links_from_html Sample.libs Sample.first_seen
       Sample.page_bad_anchor Sample.page_url
     = Raise (OtherException "Invalid IPv6 URL")
  /\ run_program Sample.libs Sample.first_seen
       (Sample.served (Ret (Sample.ok Sample.page_bad_anchor))
                      (Ret (Sample.ok Sample.page_direct)))
       ["mcpe_downloader.py"; Sample.page_url]
     = (Raise (SystemExit 1), tick_gets start,
        [EvPrint Stdout "🔍 Analyzing: https://mcpedl.org/getfile/5916";
         EvPrint Stdout "⚙️ Using requests/BeautifulSoup method (Termux friendly)";
         EvHttpGet Sample.page_url 15;
         EvPrint Stdout
           "❌ An error occurred in the requests method: Invalid IPv6 URL";
         EvPrint Stderr "❌ No download link found."]).
Proof. vm_compute. repeat split. Qed.

(* ===================================================================== *)
(** ** Properties of the candidate scan *)
(* ===================================================================== *)

Lemma mem_In (x : string) (l : list string) :
  PyStr.mem x l = true <-> In x l.
Proof.
  unfold PyStr.mem. rewrite existsb_exists. split.
  - intros [y [Hy Heq]]. apply String.eqb_eq in Heq. now subst.
  - intros Hin. exists x. split; [assumption | apply String.eqb_refl].
Qed.

Lemma mem_false (x : string) (l : list string) :
  PyStr.mem x l = false <-> ~ In x l.
Proof.
  rewrite <- mem_In. destruct (PyStr.mem x l); split; intro; congruence.
Qed.

Section ScanFacts.

Variable L : Libs.

(** The loop only appends: when it returns, what was collected before it
    stays in front, and what it added came from [.apk] anchors. *)
Lemma anchor_loop_extends (base_url : string) (hrefs links result : list string) :
  anchor_loop L base_url hrefs links = Ret result ->
  exists added,
    result = (links ++ added)%list
    /\ (forall u, In u added -> ~ In u links)
    /\ (forall u, In u added ->
          exists href, In href hrefs /\ PyStr.endswith href ".apk" = true
                       /\ urljoin L base_url href = Ret u).
Proof.
  revert links. induction hrefs as [|href rest IH]; intros links Hloop.
  - injection Hloop as <-. exists []. rewrite app_nil_r.
    repeat split; intros u [].
  - cbn [anchor_loop] in Hloop.
    assert (Hskip : anchor_loop L base_url rest links = Ret result ->
      exists added,
        result = (links ++ added)%list
        /\ (forall u, In u added -> ~ In u links)
        /\ (forall u, In u added ->
              exists h, In h (href :: rest)
                        /\ PyStr.endswith h ".apk" = true
                        /\ urljoin L base_url h = Ret u)).
    { intros Hrest. destruct (IH links Hrest) as [added [Heq [Hnew Hsrc]]].
      exists added. repeat split; try assumption.
      intros u Hu. destruct (Hsrc u Hu) as [h [Hh Hrest']].
      exists h. split; [now right | assumption]. }
    destruct (PyStr.endswith href ".apk") eqn:Hend; [| now apply Hskip].
    destruct (urljoin L base_url href) as [full_url | e] eqn:Hjoin;
      [| discriminate Hloop].
    destruct (PyStr.mem full_url links) eqn:Hmem; cbn [negb] in Hloop;
      [now apply Hskip |].
    destruct (IH (links ++ [full_url])%list Hloop)
      as [added [Heq [Hnew Hsrc]]].
    exists (full_url :: added). repeat split.
    + rewrite Heq, <- app_assoc. reflexivity.
    + intros u [Hu | Hu].
      * subst u. now apply mem_false.
      * intros Hin. apply (Hnew u Hu). apply in_or_app. now left.
    + intros u [Hu | Hu].
      * subst u. exists href. repeat split; [now left | assumption | assumption].
      * destruct (Hsrc u Hu) as [h [Hh Hrest']].
        exists h. split; [now right | assumption].
Qed.

(** When the loop returns, every anchor ending in [.apk] is in its list. *)
Lemma anchor_loop_complete (base_url : string) (hrefs links result : list string)
      (href u : string) :
  anchor_loop L base_url hrefs links = Ret result ->
  In href hrefs -> PyStr.endswith href ".apk" = true ->
  urljoin L base_url href = Ret u ->
  In u result.
Proof.
  revert links. induction hrefs as [|h rest IH]; intros links Hloop Hin Hend Hjoin.
  - destruct Hin.
  - cbn [anchor_loop] in Hloop. destruct Hin as [-> | Hin].
    + rewrite Hend, Hjoin in Hloop.
      destruct (PyStr.mem u links) eqn:Hmem; cbn [negb] in Hloop;
        destruct (anchor_loop_extends _ _ _ _ Hloop) as [added [-> _]].
      * apply in_or_app. left. now apply mem_In.
      * apply in_or_app. left. apply in_or_app. right. now left.
    + destruct (PyStr.endswith h ".apk");
        [destruct (urljoin L base_url h) as [full_url | e];
           [destruct (PyStr.mem full_url links); cbn [negb] in Hloop
           | discriminate Hloop] |];
        now apply (IH _ Hloop).
Qed.

(** The list handed to [set]: the pattern matches, in page order, followed by
    the links only anchors give. *)
Lemma collected_links_matches_first (html_content base_url : string)
      (links : list string) :
  collected_links L html_content base_url = Ret links ->
  exists added,
    links = (Pattern.findall html_content ++ added)%list
    /\ forall u, In u added -> anchor_only L html_content base_url u.
Proof.
  unfold collected_links.
  destruct (a_hrefs L html_content) as [hrefs | e] eqn:Hparse;
    [| discriminate].
  assert (Hlinks :
    match Pattern.findall html_content with
    | [] => []
    | _ :: _ => ([] ++ Pattern.findall html_content)%list
    end = Pattern.findall html_content).
  { destruct (Pattern.findall html_content); reflexivity. }
  cbv zeta. rewrite Hlinks. intros Hloop.
  destruct (anchor_loop_extends _ _ _ _ Hloop) as [added [Heq [Hnew Hsrc]]].
  exists added. split; [assumption |].
  intros u Hu. split; [| apply (Hnew u Hu)].
  destruct (Hsrc u Hu) as [href [Hin [Hend Hjoin]]].
  exists hrefs, href. repeat split; assumption.
Qed.

(** The members of the collected list. *)
Lemma collected_links_In (html_content base_url : string)
      (links : list string) (u : string) :
  collected_links L html_content base_url = Ret links ->
  In u links
  <-> In u (Pattern.findall html_content)
      \/ anchor_derived L html_content base_url u.
Proof.
  intros Hcoll. split.
  - destruct (collected_links_matches_first _ _ _ Hcoll)
      as [added [-> Hadded]].
    intros Hin. apply in_app_or in Hin. destruct Hin as [Hin | Hin].
    + now left.
    + right. apply (Hadded u Hin).
  - intros [Hin | [hrefs [href [Hparse [Hin [Hend Hjoin]]]]]].
    + destruct (collected_links_matches_first _ _ _ Hcoll)
        as [added [-> _]].
      apply in_or_app. now left.
    + unfold collected_links in Hcoll. rewrite Hparse in Hcoll.
      now apply (anchor_loop_complete _ _ _ _ href u Hcoll).
Qed.

(** A scan that returns hands back the collected list, as a set. *)
Lemma extract_collected (H : HashOrder) (html_content base_url : string)
      (r : list string) :
  _extract_direct_links_from_html L H html_content base_url = Ret r ->
  exists links,
    collected_links L html_content base_url = Ret links
    /\ r = list_of_set H links.
Proof.
  unfold _extract_direct_links_from_html.
  destruct (collected_links L html_content base_url) as [links | e];
    [| discriminate].
  intros [= <-]. now exists links.
Qed.

(** The members of the scan's result, whatever the hash order. *)
Lemma extract_In (H : HashOrder) (html_content base_url : string)
      (r : list string) (u : string) :
  _extract_direct_links_from_html L H html_content base_url = Ret r ->
  In u r
  <-> In u (Pattern.findall html_content)
      \/ anchor_derived L html_content base_url u.
Proof.
  intros Hscan. destruct (extract_collected _ _ _ _ Hscan) as [links [Hcoll ->]].
  rewrite list_of_set_In. now apply collected_links_In.
Qed.

End ScanFacts.

Lemma put_first_NoDup (x : string) (l : list string) : NoDup (put_first x l).
Proof.
  unfold put_first. destruct (in_dec string_dec x l).
  - constructor.
    + rewrite filter_In. intros [_ Hneq].
      rewrite String.eqb_refl in Hneq. discriminate.
    + apply NoDup_filter, NoDup_nodup.
  - apply NoDup_nodup.
Qed.

Lemma put_first_In (x : string) (l : list string) (y : string) :
  In y (put_first x l) <-> In y l.
Proof.
  unfold put_first. destruct (in_dec string_dec x l) as [Hx | Hx].
  - simpl. rewrite filter_In, nodup_In. split.
    + intros [<- | [Hy _]]; assumption.
    + intros Hy. destruct (String.eqb y x) eqn:Heq.
      * left. apply String.eqb_eq in Heq. now symmetry.
      * right. now split.
  - apply nodup_In.
Qed.

Definition walking_first (x : string) : HashOrder :=
  {| list_of_set := put_first x;
     list_of_set_NoDup := put_first_NoDup x;
     list_of_set_In := put_first_In x |}.

(** Whatever the page, every collected link, a link found by the anchor scan
    alone included, is the first element of the scan's result for some hash
    order. *)
Lemma any_collected_link_can_come_first (L : Libs)
      (html_content base_url : string) (links : list string) (u : string) :
  collected_links L html_content base_url = Ret links ->
  In u links ->
  exists r,
    _extract_direct_links_from_html L (walking_first u) html_content base_url
    = Ret r
    /\ hd_error r = Some u.
Proof.
  intros Hcoll Hin. unfold _extract_direct_links_from_html. rewrite Hcoll.
  eexists. split; [reflexivity |].
  cbn [list_of_set walking_first]. unfold put_first.
  destruct (in_dec string_dec u links); [reflexivity | contradiction].
Qed.

(** The hash order of the process only permutes what the scan returns: two
    runs on the same markup and base URL either both raise, the same
    exception, or return lists with the same members, each once. *)
Lemma extract_same_set_in_every_run (L : Libs) (H1 H2 : HashOrder)
      (html_content base_url : string) :
  match _extract_direct_links_from_html L H1 html_content base_url,
        _extract_direct_links_from_html L H2 html_content base_url with
  | Ret r1, Ret r2 => Permutation r1 r2
  | Raise e1, Raise e2 => e1 = e2
  | _, _ => False
  end.
Proof.
  unfold _extract_direct_links_from_html.
  destruct (collected_links L html_content base_url) as [links | e];
    [| reflexivity].
  apply NoDup_Permutation; try apply list_of_set_NoDup.
  intros u. now rewrite !list_of_set_In.
Qed.

(* ===================================================================== *)
(** ** Running the methods *)
(* ===================================================================== *)

Lemma raise_for_status_ok (r : Response) :
  http_error r = false -> raise_for_status r = ret tt.
Proof.
  unfold http_error, raise_for_status.
  destruct (Nat.leb_spec 400 (status_code r)),
           (Nat.ltb_spec (status_code r) 500),
           (Nat.leb_spec 500 (status_code r)),
           (Nat.ltb_spec (status_code r) 600);
    cbn [andb]; intros Hok; try discriminate; try lia; reflexivity.
Qed.

Lemma raise_for_status_error (r : Response) :
  http_error r = true ->
  exists msg, raise_for_status r = raise (RequestException msg).
Proof.
  unfold http_error, raise_for_status.
  destruct (Nat.leb_spec 400 (status_code r)),
           (Nat.ltb_spec (status_code r) 500),
           (Nat.leb_spec 500 (status_code r)),
           (Nat.ltb_spec (status_code r) 600);
    cbn [andb]; intros Herr; try discriminate; try lia;
    eexists; reflexivity.
Qed.

(** Unfolding of the monad's combinators, leaving strings alone. *)
Ltac run :=
  cbv [bind ret raise emit get_state modify answer try_except try_finally
       print eprint sys_exit session_get time_sleep negb orb andb];
  cbn [app gets sleeps use_selenium driver tick_gets tick_sleeps
       set_use_selenium set_driver].

(** C9.  Called without a URL, or with a URL that does not start with
    [http], the program prints the usage lines (respectively the scheme
    error) on standard output, exits with status 1, and does nothing else:
    no request, no sleep, no browser. *)
Theorem main_usage_error (L : Libs) (H : HashOrder) (W : World)
        (argv : list string) :
  List.length argv < 2 \/ PyStr.startswith (nth 1 argv "") "http" = false ->
  let '(r, _, tr) := run_program L H W argv in
  exit_code r = 1%Z
  /\ actions tr = []
  /\ tr = if (List.length argv <? 2)%nat
          then [EvPrint Stdout "Usage: python mcpe_downloader.py <URL>";
                EvPrint Stdout
                  "Example: python mcpe_downloader.py https://mcpedl.org/getfile/5916"]
          else [EvPrint Stdout "Error: URL must start with http:// or https://"].
Proof.
  intros Hbad. unfold run_program, main.
  destruct (List.length argv <? 2)%nat eqn:Hlen.
  - run. repeat split.
  - destruct Hbad as [Hshort | Hscheme].
    + apply Nat.ltb_ge in Hlen. lia.
    + rewrite Hscheme. run. repeat split.
Qed.

Lemma main_usage_error_witness :
  let '(r, _, tr) :=
    run_program Sample.libs Sample.first_seen
      (Sample.served (Ret (Sample.ok Sample.page_direct))
                     (Ret (Sample.ok Sample.page_direct)))
      ["mcpe_downloader.py"; "ftp://mcpedl.org/getfile/5916"] in
  exit_code r = 1%Z
  /\ actions tr = []
  /\ tr = [EvPrint Stdout "Error: URL must start with http:// or https://"].
Proof.
  exact (main_usage_error Sample.libs Sample.first_seen
           (Sample.served (Ret (Sample.ok Sample.page_direct))
                          (Ret (Sample.ok Sample.page_direct)))
           ["mcpe_downloader.py"; "ftp://mcpedl.org/getfile/5916"]
           (or_intror eq_refl)).
Defined.

(** C6.  On the plain-fetch path, a page without any candidate link and
    without any countdown word ends the extraction with not-found after one
    single request: the trace holds one [session.get], no sleep and no second
    request. *)
Theorem requests_no_timer_single_fetch (L : Libs) (H : HashOrder) (W : World)
        (s : State) (url : string) (r1 : Response) (page_text : string) :
  http_get W (gets s) url = Ret r1 ->
  http_error r1 = false ->
  _extract_direct_links_from_html L H (text r1) url = Ret [] ->
  get_text L (text r1) = Ret page_text ->
  timer_detected (PyStr.lower page_text) = false ->
  _get_download_link_requests L H W url s
  = (Ret None, tick_gets s,
     [EvPrint Stdout "⚙️ Using requests/BeautifulSoup method (Termux friendly)";
      EvHttpGet url 15;
      EvPrint Stdout "❌ Could not find a direct link."]).
Proof.
  intros Hget Hok Hscan Htext Htimer.
  unfold _get_download_link_requests. run.
  rewrite Hget, (raise_for_status_ok r1 Hok). run.
  rewrite Hscan, Htext, Htimer. reflexivity.
Qed.

Lemma requests_no_timer_single_fetch_witness :
  _get_download_link_requests Sample.libs Sample.first_seen
    (Sample.served (Ret (Sample.ok Sample.page_plain))
                   (Ret (Sample.ok Sample.page_direct)))
    Sample.page_url start
  = (Ret None, tick_gets start,
     [EvPrint Stdout "⚙️ Using requests/BeautifulSoup method (Termux friendly)";
      EvHttpGet Sample.page_url 15;
      EvPrint Stdout "❌ Could not find a direct link."]).
Proof.
  exact (requests_no_timer_single_fetch Sample.libs Sample.first_seen
           (Sample.served (Ret (Sample.ok Sample.page_plain))
                          (Ret (Sample.ok Sample.page_direct)))
           start Sample.page_url (Sample.ok Sample.page_plain)
           (Sample.get_text Sample.page_plain)
           eq_refl eq_refl eq_refl eq_refl eq_refl).
Defined.

(** What the plain-fetch path does on a countdown page, whatever the second
    response holds and whatever its scan does. *)
Lemma requests_timer_run (L : Libs) (H : HashOrder) (W : World)
      (s : State) (url : string) (r1 r2 : Response) (page_text : string) :
  http_get W (gets s) url = Ret r1 ->
  http_error r1 = false ->
  _extract_direct_links_from_html L H (text r1) url = Ret [] ->
  get_text L (text r1) = Ret page_text ->
  timer_detected (PyStr.lower page_text) = true ->
  sleep W (sleeps s) 12 = Ret tt ->
  http_get W (S (gets s)) url = Ret r2 ->
  let '(r, s', tr) := _get_download_link_requests L H W url s in
  r = first_candidate (_extract_direct_links_from_html L H (text r2) url)
  /\ s' = tick_gets (tick_sleeps (tick_gets s))
  /\ actions tr = [EvHttpGet url 15; EvSleep 12; EvHttpGet url 15].
Proof.
  intros Hget Hok Hscan Htext Htimer Hsleep Hget2.
  unfold _get_download_link_requests. run.
  rewrite Hget, (raise_for_status_ok r1 Hok). run.
  rewrite Hscan, Htext, Htimer. run.
  rewrite Hsleep. run. rewrite Hget2.
  destruct (_extract_direct_links_from_html L H (text r2) url)
    as [[|link0 others] | e]; [| | destruct e]; repeat split.
Qed.

(** C5.  On the plain-fetch path, when the first page has no candidate and
    its lower-cased text holds a countdown word, the extraction sleeps once,
    for 12, asks for the same URL once more, and returns the first candidate
    of the scan of the second body, or not-found when that scan is empty.  A
    link it returns is a pattern match of the second body or an [.apk] anchor
    of it joined to the base URL.  (A scan of the second body that raises is
    reported by the handler and gives not-found too, after the same wait and
    the same two requests.) *)
Theorem requests_timer_one_wait_one_refetch (L : Libs) (H : HashOrder)
        (W : World) (s : State) (url : string) (r1 r2 : Response)
        (page_text : string) :
  http_get W (gets s) url = Ret r1 ->
  http_error r1 = false ->
  _extract_direct_links_from_html L H (text r1) url = Ret [] ->
  get_text L (text r1) = Ret page_text ->
  timer_detected (PyStr.lower page_text) = true ->
  sleep W (sleeps s) 12 = Ret tt ->
  http_get W (S (gets s)) url = Ret r2 ->
  let '(r, s', tr) := _get_download_link_requests L H W url s in
  actions tr = [EvHttpGet url 15; EvSleep 12; EvHttpGet url 15]
  /\ gets s' = 2 + gets s
  /\ sleeps s' = 1 + sleeps s
  /\ r = first_candidate (_extract_direct_links_from_html L H (text r2) url)
  /\ (forall links,
        _extract_direct_links_from_html L H (text r2) url = Ret links ->
        r = Ret (hd_error links))
  /\ (_extract_direct_links_from_html L H (text r2) url = Ret [] ->
      r = Ret None)
  /\ (forall e,
        _extract_direct_links_from_html L H (text r2) url = Raise e ->
        is_Exception e = true -> r = Ret None)
  /\ (forall u, r = Ret (Some u) ->
        In u (Pattern.findall (text r2)) \/ anchor_derived L (text r2) url u).
Proof.
  intros Hget Hok Hscan Htext Htimer Hsleep Hget2.
  pose proof (requests_timer_run L H W s url r1 r2 page_text
                Hget Hok Hscan Htext Htimer Hsleep Hget2) as Hrun.
  destruct (_get_download_link_requests L H W url s) as [[r s'] tr].
  destruct Hrun as [Hr [Hs Hact]]. subst r s'.
  repeat split; try assumption.
  - intros links ->. reflexivity.
  - intros ->. reflexivity.
  - intros e -> He. cbn [first_candidate]. now rewrite He.
  - intros u Hu.
    destruct (_extract_direct_links_from_html L H (text r2) url)
      as [links | e] eqn:Hscan2; cbn [first_candidate] in Hu.
    + apply (extract_In L H _ _ _ u Hscan2).
      destruct links as [|x rest]; [discriminate Hu |].
      injection Hu as ->. now left.
    + destruct (is_Exception e); discriminate Hu.
Qed.

Lemma requests_timer_one_wait_one_refetch_witness :
  let '(r, s', tr) :=
    _get_download_link_requests Sample.libs Sample.first_seen
      (Sample.served (Ret (Sample.ok Sample.page_wait))
                     (Ret (Sample.ok Sample.page_after_wait)))
      Sample.page_url start in
  actions tr = [EvHttpGet Sample.page_url 15; EvSleep 12;
                EvHttpGet Sample.page_url 15]
  /\ r = Ret (Some "https://mcpedl.org/files/app.apk").
Proof.
  pose proof (requests_timer_one_wait_one_refetch Sample.libs Sample.first_seen
                (Sample.served (Ret (Sample.ok Sample.page_wait))
                               (Ret (Sample.ok Sample.page_after_wait)))
                start Sample.page_url
                (Sample.ok Sample.page_wait) (Sample.ok Sample.page_after_wait)
                (Sample.get_text Sample.page_wait)
                eq_refl eq_refl eq_refl eq_refl eq_refl eq_refl eq_refl)
    as Hrun.
  destruct (_get_download_link_requests Sample.libs Sample.first_seen
              (Sample.served (Ret (Sample.ok Sample.page_wait))
                             (Ret (Sample.ok Sample.page_after_wait)))
              Sample.page_url start) as [[r s'] tr].
  destruct Hrun as [Hact [_ [_ [Hr _]]]].
  split; [exact Hact | exact Hr].
Defined.

(** C10.  On the plain-fetch path the first response is checked: with a 4xx
    or 5xx status the extraction stops there, reports a network error and
    returns not-found, whatever the body holds.  The response to the request
    made after the wait is not checked: whatever its status, an error status
    included, its body is scanned and the first candidate found in it is
    returned (not-found when the scan finds nothing or raises). *)
Theorem requests_status_checked_on_first_fetch_only (L : Libs) (H : HashOrder)
        (W : World) (s : State) (url : string) :
  (forall r1,
      http_get W (gets s) url = Ret r1 ->
      http_error r1 = true ->
      exists msg,
        _get_download_link_requests L H W url s
        = (Ret None, tick_gets s,
           [EvPrint Stdout "⚙️ Using requests/BeautifulSoup method (Termux friendly)";
            EvHttpGet url 15;
            EvPrint Stdout ("❌ Network error: " ++ msg)]))
  /\ (forall r1 r2 page_text,
         http_get W (gets s) url = Ret r1 ->
         http_error r1 = false ->
         _extract_direct_links_from_html L H (text r1) url = Ret [] ->
         get_text L (text r1) = Ret page_text ->
         timer_detected (PyStr.lower page_text) = true ->
         sleep W (sleeps s) 12 = Ret tt ->
         http_get W (S (gets s)) url = Ret r2 ->
         fst (fst (_get_download_link_requests L H W url s))
         = first_candidate
             (_extract_direct_links_from_html L H (text r2) url)
         /\ forall links,
              _extract_direct_links_from_html L H (text r2) url = Ret links ->
              fst (fst (_get_download_link_requests L H W url s))
              = Ret (hd_error links)).
Proof.
  split.
  - intros r1 Hget Herr.
    destruct (raise_for_status_error r1 Herr) as [msg Hraise].
    exists msg. unfold _get_download_link_requests. run.
    rewrite Hget, Hraise. reflexivity.
  - intros r1 r2 page_text Hget Hok Hscan Htext Htimer Hsleep Hget2.
    pose proof (requests_timer_run L H W s url r1 r2 page_text
                  Hget Hok Hscan Htext Htimer Hsleep Hget2) as Hrun.
    destruct (_get_download_link_requests L H W url s) as [[r s'] tr].
    destruct Hrun as [Hr _]. cbn [fst]. split; [exact Hr |].
    intros links Hscan2. rewrite Hr, Hscan2. reflexivity.
Qed.

Lemma requests_status_checked_on_first_fetch_only_witness :
  (exists msg,
      _get_download_link_requests Sample.libs Sample.first_seen
        (Sample.served (Ret (Sample.not_found Sample.page_direct))
                       (Ret (Sample.ok Sample.page_direct)))
        Sample.page_url start
      = (Ret None, tick_gets start,
         [EvPrint Stdout "⚙️ Using requests/BeautifulSoup method (Termux friendly)";
          EvHttpGet Sample.page_url 15;
          EvPrint Stdout ("❌ Network error: " ++ msg)]))
  /\ fst (fst (_get_download_link_requests Sample.libs Sample.first_seen
                 (Sample.served (Ret (Sample.ok Sample.page_wait))
                                (Ret (Sample.not_found Sample.page_direct)))
                 Sample.page_url start))
     = Ret (Some Sample.artifact).
Proof.
  split.
  - exact (proj1 (requests_status_checked_on_first_fetch_only
                    Sample.libs Sample.first_seen
                    (Sample.served (Ret (Sample.not_found Sample.page_direct))
                                   (Ret (Sample.ok Sample.page_direct)))
                    start Sample.page_url)
                 (Sample.not_found Sample.page_direct) eq_refl eq_refl).
  - exact (proj1 (proj2 (requests_status_checked_on_first_fetch_only
                    Sample.libs Sample.first_seen
                    (Sample.served (Ret (Sample.ok Sample.page_wait))
                                   (Ret (Sample.not_found Sample.page_direct)))
                    start Sample.page_url)
                 (Sample.ok Sample.page_wait)
                 (Sample.not_found Sample.page_direct)
                 (Sample.get_text Sample.page_wait)
                 eq_refl eq_refl eq_refl eq_refl eq_refl eq_refl eq_refl)).
Defined.

(* ===================================================================== *)
(** ** The browser path, the fallback and the cleanup *)
(* ===================================================================== *)

(** One step of case analysis on a run: split on an answer of the world, a
    test or a scan result that the next reduction step is waiting for. *)
Ltac case_step :=
  match goal with
  | |- context [match ?x with _ => _ end] =>
      lazymatch x with
      | context [match _ with _ => _ end] => fail
      | _ => destruct x eqn:?
      end
  end.

Ltac cases_of_run :=
  run; repeat (case_step; run; cbn [is_RequestException is_Exception]).

(** Membership in a trace whose events are all displayed. *)
Ltac trace_in := cbn [In]; intuition (discriminate || congruence).

(** The plain-fetch method leaves the extractor's fields alone, never touches
    the browser, and lets no [Exception] escape. *)
Lemma requests_frame (L : Libs) (H : HashOrder) (W : World)
      (s : State) (url : string) :
  let '(r, s', tr) := _get_download_link_requests L H W url s in
  use_selenium s' = use_selenium s
  /\ driver s' = driver s
  /\ (forall e, r = Raise e -> is_Exception e = false)
  /\ ~ In EvChromeStart tr /\ ~ In EvDriverQuit tr.
Proof.
  unfold _get_download_link_requests, raise_for_status.
  cases_of_run.
  all: repeat split; try (intros e' [=]; subst; reflexivity); trace_in.
Qed.

(** C7.  When the browser path is asked for and the browser cannot be
    acquired, the browser method switches [use_selenium] off, prints its
    diagnostics and then does exactly what the plain-fetch method does on the
    same URL: same result, same requests and sleeps, no failure of its own. *)
Theorem selenium_falls_back_to_requests (L : Libs) (H : HashOrder) (W : World)
        (s : State) (url : string) :
  use_selenium s = true ->
  driver s = None ->
  browser_unavailable W ->
  let '(r, s', tr) :=
    _get_download_link_requests L H W url (set_use_selenium false s) in
  _get_download_link_selenium L H W url s
  = (r, s', (fallback_prelude W ++ tr)%list)
  /\ get_download_link L H W url s
     = (r, s',
        (EvPrint Stdout ("🔍 Analyzing: " ++ url) :: fallback_prelude W ++ tr)%list)
  /\ use_selenium s' = false
  /\ driver s' = None.
Proof.
  intros Hreq Hdrv Hun.
  pose proof (requests_frame L H W (set_use_selenium false s) url) as Hframe.
  destruct (_get_download_link_requests L H W url (set_use_selenium false s))
    as [[r s'] tr] eqn:Hplain.
  destruct Hframe as [Huse [Hd [Hexn _]]].
  cbn [use_selenium driver set_use_selenium] in Huse, Hd.
  assert (Hsel : _get_download_link_selenium L H W url s
                 = (r, s', (fallback_prelude W ++ tr)%list)).
  2: { split; [exact Hsel |]. split; [| split; [exact Huse | now rewrite Hd]].
       unfold get_download_link. run. rewrite Hreq, Hsel.
       destruct r as [a | e]; [reflexivity |].
       rewrite (Hexn e eq_refl). reflexivity. }
  unfold _get_download_link_selenium, setup_driver, fallback_prelude.
  destruct Hun as [[msg Himp] | [Himp [e [Hchrome Hexc]]]].
  - rewrite Himp. run. rewrite Hdrv. run. rewrite Hplain.
    destruct r as [a | e]; [reflexivity |].
    rewrite (Hexn e eq_refl). reflexivity.
  - rewrite Himp. run. rewrite Hdrv. run. rewrite Hchrome, Hexc. run.
    rewrite Hdrv. run. rewrite Hplain.
    destruct r as [a | e0]; [reflexivity |].
    rewrite (Hexn e0 eq_refl). reflexivity.
Qed.

Lemma selenium_falls_back_to_requests_witness :
  get_download_link Sample.libs Sample.first_seen
    (Sample.no_chromedriver (Ret (Sample.ok Sample.page_direct))
                            (Ret (Sample.ok Sample.page_direct)))
    Sample.page_url (set_use_selenium true start)
  = (Ret (Some Sample.artifact), tick_gets start,
     [EvPrint Stdout "🔍 Analyzing: https://mcpedl.org/getfile/5916";
      EvImportSelenium; EvChromeStart;
      EvPrint Stdout "❌ Failed to initialize WebDriver: chromedriver not found";
      EvPrint Stdout
        "   Note: You need to install a compatible ChromeDriver for Selenium to work.";
      EvPrint Stdout "⚠️ Selenium not available. Falling back to requests method...";
      EvPrint Stdout "⚙️ Using requests/BeautifulSoup method (Termux friendly)";
      EvHttpGet Sample.page_url 15;
      EvPrint Stdout "✅ Found direct link immediately."]).
Proof.
  exact (proj1 (proj2
    (selenium_falls_back_to_requests Sample.libs Sample.first_seen
       (Sample.no_chromedriver (Ret (Sample.ok Sample.page_direct))
                               (Ret (Sample.ok Sample.page_direct)))
       (set_use_selenium true start) Sample.page_url
       eq_refl eq_refl
       (or_intror (conj eq_refl
          (ex_intro _ (OtherException "chromedriver not found")
             (conj eq_refl eq_refl))))))).
Defined.

(** C3 as stated fails.  On a countdown page without candidate the browser
    path loads the page once, sleeps, reads the rendered markup and gives up:
    nothing is loaded after the sleep. *)
Lemma browser_path_never_refetches :
  ~ browser_refetches_after_wait Sample.libs Sample.first_seen
      (Sample.browsing Sample.page_wait (fun _ => Ret tt)
                       (Ret (Sample.ok Sample.page_after_wait)))
      Sample.page_url (set_use_selenium true start).
Proof.
  intros Hclaim.
  specialize (Hclaim Sample.page_wait (Sample.get_text Sample.page_wait)
                eq_refl eq_refl eq_refl eq_refl).
  vm_compute in Hclaim. discriminate Hclaim.
Qed.

(** C3, as the code has it.  On the browser path, once the browser is there,
    the method loads the URL once, sleeps 15 whatever the page shows, reads
    the rendered markup once and scans it once: it returns the first
    candidate of that scan, or not-found when the scan finds nothing or
    raises.  No countdown word is looked for, nothing is loaded after the
    sleep and no second scan is made. *)
Theorem selenium_waits_then_scans_once (L : Libs) (H : HashOrder) (W : World)
        (s : State) (url page : string) :
  use_selenium s = true ->
  driver s = None ->
  import_selenium W = Ret tt ->
  chrome_start W = Ret tt ->
  driver_get W url = Ret tt ->
  sleep W (sleeps s) 15 = Ret tt ->
  page_source W = Ret page ->
  let '(r, s', tr) := _get_download_link_selenium L H W url s in
  r = first_candidate (_extract_direct_links_from_html L H page url)
  /\ (forall links,
        _extract_direct_links_from_html L H page url = Ret links ->
        r = Ret (hd_error links))
  /\ actions tr
     = [EvImportSelenium; EvChromeStart; EvDriverGet url; EvSleep 15;
        EvPageSource]
  /\ page_loads (after_sleep 15 tr) = []
  /\ driver s' = Some Chrome.
Proof.
  intros Hreq Hdrv Himp Hchrome Hnav Hsleep Hsrc.
  unfold _get_download_link_selenium, setup_driver.
  rewrite Himp. run. rewrite Hdrv. run. rewrite Hchrome. run.
  rewrite Hreq. run. rewrite Hnav. run. rewrite Hsleep. run.
  rewrite Hsrc.
  destruct (_extract_direct_links_from_html L H page url)
    as [[|link0 others] | e]; [| | destruct e]; repeat split;
    intros links Hlinks; (discriminate Hlinks || now injection Hlinks as <-).
Qed.

Lemma selenium_waits_then_scans_once_witness :
  let '(r, s', tr) :=
    _get_download_link_selenium Sample.libs Sample.first_seen
      (Sample.browsing Sample.page_wait (fun _ => Ret tt)
                       (Ret (Sample.ok Sample.page_after_wait)))
      Sample.page_url (set_use_selenium true start) in
  r = Ret None
  /\ actions tr
     = [EvImportSelenium; EvChromeStart; EvDriverGet Sample.page_url;
        EvSleep 15; EvPageSource]
  /\ page_loads (after_sleep 15 tr) = []
  /\ driver s' = Some Chrome.
Proof.
  pose proof (selenium_waits_then_scans_once Sample.libs Sample.first_seen
           (Sample.browsing Sample.page_wait (fun _ => Ret tt)
                            (Ret (Sample.ok Sample.page_after_wait)))
           (set_use_selenium true start) Sample.page_url Sample.page_wait
           eq_refl eq_refl eq_refl eq_refl eq_refl eq_refl eq_refl) as Hrun.
  destruct (_get_download_link_selenium Sample.libs Sample.first_seen
              (Sample.browsing Sample.page_wait (fun _ => Ret tt)
                               (Ret (Sample.ok Sample.page_after_wait)))
              Sample.page_url (set_use_selenium true start))
    as [[r s'] tr].
  destruct Hrun as [Hr [_ Hrest]]. split; [exact Hr | exact Hrest].
Defined.

Lemma browser_live_app (W : World) (live : bool) (t1 t2 : list event) :
  browser_live W live (t1 ++ t2) = browser_live W (browser_live W live t1) t2.
Proof.
  revert live. induction t1 as [|ev t1 IH]; intros live; [reflexivity |].
  destruct ev; cbn [app browser_live]; apply IH.
Qed.

Lemma browser_live_untouched (W : World) (live : bool) (tr : list event) :
  ~ In EvChromeStart tr -> ~ In EvDriverQuit tr ->
  browser_live W live tr = live.
Proof.
  induction tr as [|ev tr IH]; intros Hs Hq; [reflexivity |].
  destruct ev; cbn [browser_live];
    try (apply IH; intros Hin; [apply Hs | apply Hq]; now right).
  - exfalso. apply Hs. now left.
  - exfalso. apply Hq. now left.
Qed.

(** The plain-fetch method seen from the browser: nothing happens. *)
Lemma requests_browser_frame (L : Libs) (H : HashOrder) (W : World)
      (s : State) (url : string) (live : bool) :
  let '(r, s', tr) := _get_download_link_requests L H W url s in
  browser_live W live tr = live /\ has_driver s' = has_driver s.
Proof.
  pose proof (requests_frame L H W s url) as Hframe.
  destruct (_get_download_link_requests L H W url s) as [[r s'] tr].
  destruct Hframe as [_ [Hd [_ [Hs Hq]]]].
  split; [now apply browser_live_untouched | unfold has_driver; now rewrite Hd].
Qed.

Ltac recall_requests_frame live :=
  repeat match goal with
  | Hrun : _get_download_link_requests ?L ?H ?W ?url ?st = (_, _, _) |- _ =>
      let F := fresh "Hframe" in
      pose proof (requests_browser_frame L H W st url live) as F;
      rewrite Hrun in F; clear Hrun
  end.

(** The extractor keeps [self.driver] in step with the browser: after
    [get_download_link], a browser runs exactly when a driver is held. *)
Lemma get_download_link_browser_frame (L : Libs) (H : HashOrder) (W : World)
      (s : State) (url : string) :
  driver s = None ->
  let '(r, s', tr) := get_download_link L H W url s in
  browser_live W false tr = has_driver s'.
Proof.
  intros Hdrv.
  unfold get_download_link, _get_download_link_selenium, setup_driver.
  cases_of_run.
  all: try congruence.
  all: recall_requests_frame false.
  all: cbn [browser_live]; rewrite ?browser_live_app; cbn [browser_live];
    repeat match goal with
      | Hc : chrome_start _ = _ |- _ => rewrite Hc
      | F : _ /\ _ |- _ => destruct F as [-> ->]
      end;
    unfold has_driver; cbn [driver tick_sleeps tick_gets set_driver set_use_selenium];
    try match goal with
        | Hd : driver ?st = _ |- context [driver ?st] => rewrite Hd
        end;
    reflexivity.
Qed.

Lemma browser_live_true_false (W : World) (tr : list event) :
  browser_live W true tr = false -> In EvDriverQuit tr.
Proof.
  induction tr as [|ev tr IH]; [discriminate |].
  destruct ev; cbn [browser_live]; intros Hlive;
    try (right; now apply IH).
  - destruct (chrome_start W); right; now apply IH.
  - now left.
Qed.

(** If no browser is left at the end of a trace, every successful start of
    Chrome in it has been answered by a [driver.quit()]. *)
Lemma browser_live_false_quit (W : World) (tr : list event) (live : bool) :
  browser_live W live tr = false ->
  In EvChromeStart tr -> chrome_start W = Ret tt -> In EvDriverQuit tr.
Proof.
  intros Hlive Hstart Hok. revert live Hlive.
  induction tr as [|ev tr IH]; [destruct Hstart |].
  intros live Hlive.
  destruct ev; cbn [browser_live] in Hlive;
    try (destruct Hstart as [Heq | Hstart]; [discriminate Heq |];
         right; now apply (IH Hstart live)).
  - rewrite Hok in Hlive. right. now apply (browser_live_true_false W).
  - now left.
Qed.

Ltac recall_get_download_link_frame :=
  repeat match goal with
  | Hrun : get_download_link ?L ?H ?W ?url ?st = (_, _, _) |- _ =>
      let F := fresh "Hframe" in
      pose proof (get_download_link_browser_frame L H W st url eq_refl) as F;
      rewrite Hrun in F; clear Hrun
  end.

(** C8.  Once the extractor exists, whatever the world answers and however
    [main] ends (plain return, [SystemExit] after a failure or an interrupt,
    an exception nobody caught), no browser is left running when the process
    exits: every successful start of Chrome is followed by [driver.quit()],
    called from the [finally] block, and when that call returns the extractor
    holds no driver any more. *)
Theorem main_always_closes_driver (L : Libs) (H : HashOrder) (W : World)
        (argv : list string) :
  let '(r, s, tr) := run_program L H W argv in
  browser_live W false tr = false
  /\ (driver_quit W = Ret tt -> driver s = None)
  /\ (In EvChromeStart tr -> chrome_start W = Ret tt -> In EvDriverQuit tr).
Proof.
  assert (Hmain :
    let '(r, s, tr) := run_program L H W argv in
    browser_live W false tr = false
    /\ (driver_quit W = Ret tt -> driver s = None)).
  { unfold run_program, main, __init__, close_driver, link_truthy, start.
    cases_of_run.
    all: recall_get_download_link_frame.
    all: rewrite ?browser_live_app; cbn [browser_live];
      try match goal with F : browser_live _ _ _ = _ |- _ => rewrite F end;
      unfold has_driver;
      try match goal with
          | Hd : driver ?st = _ |- context [driver ?st] => rewrite Hd
          end.
    all: split; [reflexivity | intros Hquit; congruence]. }
  destruct (run_program L H W argv) as [[r s] tr].
  destruct Hmain as [Hlive Hnone]. repeat split; try assumption.
  apply (browser_live_false_quit W tr false Hlive).
Qed.

(** Three ways out with a browser running: a link found, an interrupt during
    the wait, and a [driver.quit()] that itself fails. *)
Example main_closes_driver_on_return :
  run_program Sample.libs Sample.first_seen
    (Sample.browsing Sample.page_direct (fun _ => Ret tt)
                     (Ret (Sample.ok Sample.page_plain)))
    ["mcpe_downloader.py"; Sample.page_url; "--selenium"]
  = (Ret tt,
     {| use_selenium := true; driver := None; gets := 0; sleeps := 1 |},
     [EvPrint Stdout "🔍 Analyzing: https://mcpedl.org/getfile/5916";
      EvImportSelenium; EvChromeStart;
      EvPrint Stdout "✅ Selenium WebDriver initialized";
      EvPrint Stdout "🌐 Loading page with Selenium...";
      EvDriverGet Sample.page_url;
      EvPrint Stdout "⏳ Waiting up to 15 seconds for download link...";
      EvSleep 15; EvPageSource;
      EvPrint Stdout "✅ Found link with Selenium.";
      EvPrint Stdout Sample.artifact;
      EvDriverQuit]).
Proof. vm_compute. reflexivity. Qed.

Example main_closes_driver_on_interrupt :
  run_program Sample.libs Sample.first_seen
    (Sample.browsing Sample.page_direct (fun _ => Raise KeyboardInterrupt)
                     (Ret (Sample.ok Sample.page_plain)))
    ["mcpe_downloader.py"; Sample.page_url; "-s"]
  = (Raise (SystemExit 1),
     {| use_selenium := true; driver := None; gets := 0; sleeps := 1 |},
     [EvPrint Stdout "🔍 Analyzing: https://mcpedl.org/getfile/5916";
      EvImportSelenium; EvChromeStart;
      EvPrint Stdout "✅ Selenium WebDriver initialized";
      EvPrint Stdout "🌐 Loading page with Selenium...";
      EvDriverGet Sample.page_url;
      EvPrint Stdout "⏳ Waiting up to 15 seconds for download link...";
      EvSleep 15;
      EvPrint Stderr (String (ascii_of_nat 10) "⏹️ Process interrupted by user.");
      EvDriverQuit]).
Proof. vm_compute. reflexivity. Qed.


Lemma main_always_closes_driver_witness :
  let '(r, s, tr) :=
    run_program Sample.libs Sample.first_seen
      (Sample.browsing Sample.page_direct (fun _ => Raise KeyboardInterrupt)
                       (Ret (Sample.ok Sample.page_plain)))
      ["mcpe_downloader.py"; Sample.page_url; "-s"] in
  r = Raise (SystemExit 1) /\ driver s = None /\ In EvDriverQuit tr.
Proof.
  pose proof (main_always_closes_driver Sample.libs Sample.first_seen
                (Sample.browsing Sample.page_direct
                   (fun _ => Raise KeyboardInterrupt)
                   (Ret (Sample.ok Sample.page_plain)))
                ["mcpe_downloader.py"; Sample.page_url; "-s"]) as Hclosed.
  rewrite main_closes_driver_on_interrupt in *.
  destruct Hclosed as [_ [Hnone Hquit]].
  split; [reflexivity |]. split.
  - apply Hnone. reflexivity.
  - apply Hquit; [| reflexivity]. cbn [In]. right. right. now left.
Defined.

(* ===================================================================== *)
(** ** What reaches standard output *)
(* ===================================================================== *)

Lemma lines_on_app (f : stream) (t1 t2 : list event) :
  lines_on f (t1 ++ t2) = (lines_on f t1 ++ lines_on f t2)%list.
Proof.
  induction t1 as [|ev t1 IH]; [reflexivity |].
  destruct ev; cbn [app lines_on]; try exact IH.
  destruct f, f0; cbn [app]; now rewrite IH.
Qed.

(** [get_download_link] starts by announcing the URL on standard output. *)
Lemma get_download_link_announces (L : Libs) (H : HashOrder) (W : World)
      (url : string) (s : State) :
  exists rest,
    snd (get_download_link L H W url s)
    = EvPrint Stdout ("🔍 Analyzing: " ++ url) :: rest.
Proof.
  unfold get_download_link. run.
  destruct (use_selenium s).
  - destruct (_get_download_link_selenium L H W url s) as [[[a | e] s'] tr];
      [eexists; reflexivity |].
    destruct (is_Exception e); eexists; reflexivity.
  - destruct (_get_download_link_requests L H W url s) as [[[a | e] s'] tr];
      [eexists; reflexivity |].
    destruct (is_Exception e); eexists; reflexivity.
Qed.

(** X17.  Whenever [main] returns normally, the last line of standard
    output is the very link [get_download_link] returned, a non-empty string,
    and it is not the only line: all that [get_download_link] printed there,
    starting with the announcement of the URL, comes before it. *)
Lemma main_success_stdout (L : Libs) (H : HashOrder) (W : World)
      (argv : list string) :
  let '(r, _, tr) := run_program L H W argv in
  r = Ret tt ->
  exists link s1 t1 rest,
    get_download_link L H W (nth 1 argv "") (constructed argv)
    = (Ret (Some link), s1, t1)
    /\ link <> ""
    /\ lines_on Stdout t1 = ("🔍 Analyzing: " ++ nth 1 argv "") :: rest
    /\ lines_on Stdout tr = (lines_on Stdout t1 ++ [link])%list.
Proof.
  unfold run_program, main.
  destruct (List.length argv <? 2)%nat; [run; discriminate |].
  destruct (PyStr.startswith (nth 1 argv "") "http");
    cbn [negb]; [| run; discriminate].
  unfold constructed.
  remember ((2 <? List.length argv)%nat
            && PyStr.mem (nth 2 argv "") ["-s"; "--selenium"]) as flag.
  clear Heqflag.
  unfold __init__, close_driver, link_truthy, start.
  pose proof (get_download_link_announces L H W (nth 1 argv "")
                (set_driver None (set_use_selenium flag
                   {| use_selenium := false; driver := None;
                      gets := 0; sleeps := 0 |}))) as [rest Hrest].
  cbn [set_driver set_use_selenium use_selenium driver gets sleeps] in Hrest.
  cases_of_run.
  all: intros Hret; try discriminate Hret.
  all: cbn [snd] in Hrest; subst.
  all: match goal with
       | Ht : PyStr.truthy ?u = true |- _ =>
           exists u; do 2 eexists; exists (lines_on Stdout rest);
           split; [reflexivity |];
           split; [intros ->; discriminate Ht |];
           split; [reflexivity |];
           rewrite ?lines_on_app; cbn [lines_on app]; rewrite ?app_nil_r;
           reflexivity
       end.
Qed.

(** C2, at a page that holds its link (scenario 1 of the specification).
    The run succeeds with status 0, and standard output holds four lines:
    three progress lines and then the link.  (The same happens on every
    successful run, see [main_success_stdout].) *)
Theorem progress_lines_share_stdout_with_link :
  let '(r, _, tr) :=
    run_program Sample.libs Sample.first_seen
      (Sample.served (Ret (Sample.ok Sample.page_direct))
                     (Ret (Sample.ok Sample.page_direct)))
      ["mcpe_downloader.py"; "https://mcpedl.org/getfile/5916"] in
  exit_code r = 0%Z
  /\ lines_on Stdout tr
     = ["🔍 Analyzing: https://mcpedl.org/getfile/5916";
        "⚙️ Using requests/BeautifulSoup method (Termux friendly)";
        "✅ Found direct link immediately.";
        "https://mcpedl.org/uploads_files/x/game.apk"]
  /\ lines_on Stderr tr = [].
Proof. vm_compute. repeat split. Qed.

(* ===================================================================== *)
(** ** Which link is returned *)
(* ===================================================================== *)

(** C1, at a page that shows the artifact URL in its text and also links a
    mirror through an anchor.  The pattern finds the artifact URL; the list
    handed to [set] has it first and the anchor-only link second; in a
    process whose hash order walks that set the other way, the scan's result
    has the anchor-only link first and the extractor returns it, though it
    does not have the artifact shape.  (In a process that walks the set in
    page order the artifact URL is returned.) *)
Theorem anchor_only_link_returned_despite_pattern_match :
  let html := Sample.page_both in
  let base := Sample.page_url in
  let mirror := "https://mcpedl.org/files/app.apk" in
  Pattern.findall html = [Sample.artifact]
  /\ anchor_only Sample.libs html base mirror
  /\ Pattern.is_match mirror = false
  /\ collected_links Sample.libs html base = Ret [Sample.artifact; mirror]
  /\ _extract_direct_links_from_html Sample.libs Sample.reversed html base
     = Ret [mirror; Sample.artifact]
  /\ fst (fst (_get_download_link_requests Sample.libs Sample.reversed
                 (Sample.served (Ret (Sample.ok html)) (Ret (Sample.ok html)))
                 base start))
     = Ret (Some mirror)
  /\ fst (fst (_get_download_link_requests Sample.libs Sample.first_seen
                 (Sample.served (Ret (Sample.ok html)) (Ret (Sample.ok html)))
                 base start))
     = Ret (Some Sample.artifact).
Proof.
  cbv zeta. split; [vm_compute; reflexivity |]. split.
  - split.
    + exists ["/files/app.apk"], "/files/app.apk".
      repeat split; vm_compute; auto.
    + vm_compute. intros [Heq | []]. discriminate Heq.
  - repeat split; vm_compute; reflexivity.
Qed.

(* ===================================================================== *)
(** ** More on the pattern step *)
(* ===================================================================== *)

Lemma startswith_refl (s : string) : PyStr.startswith s s = true.
Proof.
  induction s as [|c s IH]; [reflexivity |].
  cbn [PyStr.startswith]. now rewrite Ascii.eqb_refl.
Qed.

Lemma startswith_nil (s : string) : PyStr.startswith s "" = true.
Proof. destruct s; reflexivity. Qed.

Lemma startswith_cons (a b : ascii) (s p : string) :
  PyStr.startswith (String b s) (String a p)
  = Ascii.eqb a b && PyStr.startswith s p.
Proof. reflexivity. Qed.

Lemma contains_cons (c : ascii) (s p : string) :
  PyStr.contains (String c s) p
  = PyStr.startswith (String c s) p || PyStr.contains s p.
Proof. reflexivity. Qed.

Lemma startswith_contains (s p : string) :
  PyStr.startswith s p = true -> PyStr.contains s p = true.
Proof.
  intros Hp. destruct s; cbn [PyStr.contains]; now rewrite Hp.
Qed.

Lemma drop_app_length (p x : string) :
  PyStr.drop (String.length p) (p ++ x) = x.
Proof. induction p as [|c p IH]; [now destruct x | exact IH]. Qed.

Lemma length_app (p x : string) :
  String.length (p ++ x) = String.length p + String.length x.
Proof. induction p as [|c p IH]; [reflexivity | cbn; now rewrite IH]. Qed.

Lemma startswith_app (p x : string) : PyStr.startswith (p ++ x) p = true.
Proof.
  induction p as [|c p IH]; [apply startswith_nil |].
  cbn [append]. rewrite startswith_cons, Ascii.eqb_refl. exact IH.
Qed.

(** A prefix [p] of [s] followed by a prefix of what comes after it. *)
Lemma startswith_extend (s p x : string) :
  PyStr.startswith s p = true ->
  PyStr.startswith (PyStr.drop (String.length p) s) x = true ->
  PyStr.startswith s (p ++ x) = true.
Proof.
  revert s. induction p as [|a p IH]; intros s Hp Hx.
  - destruct s; exact Hx.
  - destruct s as [|b s]; [discriminate Hp |].
    rewrite startswith_cons in Hp. apply andb_true_iff in Hp.
    destruct Hp as [Hab Hp]. cbn [append]. rewrite startswith_cons, Hab.
    apply IH; assumption.
Qed.

Lemma endswith_app (a p : string) : PyStr.endswith (a ++ p) p = true.
Proof.
  unfold PyStr.endswith. rewrite length_app.
  replace (String.length a + String.length p - String.length p)
    with (String.length a) by lia.
  rewrite drop_app_length, String.eqb_refl.
  replace (String.length p <=? String.length a + String.length p)%nat
    with true by (symmetry; apply Nat.leb_le; lia).
  reflexivity.
Qed.

(** The run of the star is a prefix of the text, and any prefix of it is made
    of characters of the class. *)
Lemma take_path_prefix (t x : string) :
  PyStr.startswith (Pattern.take_path t) x = true ->
  PyStr.startswith t x = true /\ Pattern.take_path x = x.
Proof.
  revert t. induction x as [|a x IH]; intros t Hx.
  - split; [apply startswith_nil | reflexivity].
  - destruct t as [|b t]; [discriminate Hx |].
    cbn [Pattern.take_path] in Hx.
    destruct (Pattern.path_char b) eqn:Hb; [| discriminate Hx].
    rewrite startswith_cons in Hx. apply andb_true_iff in Hx.
    destruct Hx as [Hab Hx]. destruct (IH t Hx) as [Ht Hpath].
    split.
    + rewrite startswith_cons, Hab. exact Ht.
    + apply Ascii.eqb_eq in Hab. subst b.
      cbn [Pattern.take_path]. rewrite Hb. now rewrite Hpath.
Qed.

(** What backtracking settles on: a prefix of the run that ends with [.apk]
    and on which backtracking would settle again. *)
Lemma longest_apk_spec (run x : string) :
  Pattern.longest_apk run = Some x ->
  PyStr.startswith run x = true
  /\ (exists y, x = y ++ Pattern.suffix)
  /\ Pattern.longest_apk x = Some x.
Proof.
  revert x. induction run as [|c r IH]; intros x Hx; [discriminate Hx |].
  cbn [Pattern.longest_apk] in Hx.
  destruct (Pattern.longest_apk r) as [m |] eqn:Hr.
  - injection Hx as <-. destruct (IH m eq_refl) as [Hpre [[y Hy] Hfix]].
    split; [| split].
    + rewrite startswith_cons, Ascii.eqb_refl. exact Hpre.
    + exists (String c y). cbn [append]. now rewrite Hy.
    + cbn [Pattern.longest_apk]. now rewrite Hfix.
  - destruct (PyStr.startswith (String c r) Pattern.suffix) eqn:Hs;
      [| discriminate Hx].
    injection Hx as <-. split; [exact Hs | split].
    + exists "". reflexivity.
    + reflexivity.
Qed.

(** A successful attempt at the head of [s]: the match is a prefix of [s], it
    starts with the fixed prefix and ends with [.apk], and the pattern
    matches it entirely. *)
Lemma match_here_spec (s m : string) :
  Pattern.match_here s = Some m ->
  PyStr.startswith s m = true
  /\ PyStr.startswith m Pattern.prefix = true
  /\ PyStr.endswith m ".apk" = true
  /\ Pattern.is_match m = true.
Proof.
  unfold Pattern.match_here.
  destruct (PyStr.startswith s Pattern.prefix) eqn:Hp; [| discriminate].
  destruct (Pattern.longest_apk
              (Pattern.take_path (PyStr.drop (String.length Pattern.prefix) s)))
    as [x |] eqn:Hx; [| discriminate].
  intros Hsome.
  assert (Hm : m = Pattern.prefix ++ x) by congruence.
  subst m. clear Hsome.
  destruct (longest_apk_spec _ x Hx) as [Hpre [[y Hy] Hfix]].
  destruct (take_path_prefix _ x Hpre) as [Hdrop Hpath].
  split; [| split; [| split]].
  - now apply startswith_extend.
  - apply startswith_app.
  - rewrite Hy. change ".apk" with Pattern.suffix.
    replace (Pattern.prefix ++ y ++ Pattern.suffix)
      with ((Pattern.prefix ++ y) ++ Pattern.suffix).
    + apply endswith_app.
    + clear. induction Pattern.prefix as [|c p IH]; [reflexivity |].
      cbn [append]. now rewrite IH.
  - unfold Pattern.is_match, Pattern.match_here.
    rewrite startswith_app, drop_app_length, Hpath, Hfix.
    apply String.eqb_refl.
Qed.

Lemma findall_from_spec (skip : nat) (s m : string) :
  In m (Pattern.findall_from skip s) ->
  exists t, Pattern.match_here t = Some m /\ PyStr.contains s m = true.
Proof.
  revert skip. induction s as [|c s IH]; intros skip Hin; [destruct Hin |].
  cbn [Pattern.findall_from] in Hin.
  assert (Hlater : forall k, In m (Pattern.findall_from k s) ->
            exists t, Pattern.match_here t = Some m
                      /\ PyStr.contains (String c s) m = true).
  { intros k Hk. destruct (IH k Hk) as [t [Ht Hc]].
    exists t. split; [exact Ht |].
    rewrite contains_cons, Hc. apply orb_true_r. }
  destruct skip as [|k]; [| now apply (Hlater k)].
  destruct (Pattern.match_here (String c s)) as [m' |] eqn:Hm.
  - destruct Hin as [<- | Hin]; [| now apply (Hlater _ Hin)].
    exists (String c s). split; [exact Hm |].
    apply startswith_contains. apply (match_here_spec _ _ Hm).
  - now apply (Hlater 0).
Qed.

(** X1.  Whatever the page, every string the pattern step returns occurs in
    the page, starts with [https://mcpedl.org/uploads_files/], ends with
    [.apk], and is matched by the pattern from its first to its last
    character (so it holds no quote, white space or angle bracket). *)
Theorem findall_matches_have_artifact_shape (html m : string) :
  In m (Pattern.findall html) ->
  PyStr.contains html m = true
  /\ PyStr.startswith m "https://mcpedl.org/uploads_files/" = true
  /\ PyStr.endswith m ".apk" = true
  /\ Pattern.is_match m = true.
Proof.
  intros Hin. destruct (findall_from_spec 0 html m Hin) as [t [Ht Hc]].
  destruct (match_here_spec t m Ht) as [_ [Hp [He Hm]]].
  repeat split; assumption.
Qed.

Lemma findall_matches_have_artifact_shape_witness :
  PyStr.contains Sample.page_both Sample.artifact = true
  /\ PyStr.startswith Sample.artifact "https://mcpedl.org/uploads_files/" = true
  /\ PyStr.endswith Sample.artifact ".apk" = true
  /\ Pattern.is_match Sample.artifact = true.
Proof.
  apply (findall_matches_have_artifact_shape Sample.page_both Sample.artifact).
  vm_compute. left. reflexivity.
Defined.

(** X2.  A page in which the host-and-directory prefix of artifact URLs does
    not occur gives the pattern step nothing. *)
Theorem findall_nothing_without_prefix (html : string) :
  PyStr.contains html "https://mcpedl.org/uploads_files/" = false ->
  Pattern.findall html = [].
Proof.
  change "https://mcpedl.org/uploads_files/" with Pattern.prefix.
  unfold Pattern.findall. generalize 0 as skip.
  induction html as [|c s IH]; intros skip Hno; [reflexivity |].
  rewrite contains_cons in Hno. apply orb_false_iff in Hno.
  destruct Hno as [Hhead Hrest].
  cbn [Pattern.findall_from]. destruct skip as [|k]; [| now apply IH].
  unfold Pattern.match_here. rewrite Hhead. now apply IH.
Qed.

Lemma findall_nothing_without_prefix_witness :
  Pattern.findall Sample.page_after_wait = [].
Proof.
  apply findall_nothing_without_prefix. vm_compute. reflexivity.
Defined.

(* ===================================================================== *)
(** ** More on the anchor step and the countdown test *)
(* ===================================================================== *)

Lemma NoDup_snoc (l : list string) (x : string) :
  NoDup l -> ~ In x l -> NoDup (l ++ [x]).
Proof.
  intros Hl Hx. apply (Permutation_NoDup (Permutation_cons_append l x)).
  now constructor.
Qed.

Lemma anchor_loop_NoDup (L : Libs) (base_url : string)
      (hrefs links result : list string) :
  anchor_loop L base_url hrefs links = Ret result ->
  NoDup links -> NoDup result.
Proof.
  revert links. induction hrefs as [|href rest IH]; intros links Hloop Hnd.
  - injection Hloop as <-. exact Hnd.
  - cbn [anchor_loop] in Hloop.
    destruct (PyStr.endswith href ".apk"); [| now apply (IH links)].
    destruct (urljoin L base_url href) as [full_url | e];
      [| discriminate Hloop].
    destruct (PyStr.mem full_url links) eqn:Hmem; cbn [negb] in Hloop;
      [now apply (IH links) |].
    apply (IH _ Hloop). apply NoDup_snoc; [exact Hnd | now apply mem_false].
Qed.

(** X3.  The anchor loop never adds a link twice and never adds one the
    pattern step had found: whenever the list built before [set] is reached
    (the parser and every [urljoin] returned) and the pattern matches of the
    page are pairwise distinct, that list has no repetition, and the scan
    returns that very list up to order. *)
Theorem collected_links_distinct (L : Libs) (H : HashOrder)
        (html_content base_url : string) (links : list string) :
  collected_links L html_content base_url = Ret links ->
  NoDup (Pattern.findall html_content) ->
  NoDup links
  /\ exists r,
       _extract_direct_links_from_html L H html_content base_url = Ret r
       /\ Permutation links r.
Proof.
  intros Hcoll Hnd.
  assert (Hlinks : NoDup links).
  { unfold collected_links in Hcoll.
    destruct (a_hrefs L html_content) as [hrefs | e]; [| discriminate Hcoll].
    cbv zeta in Hcoll.
    destruct (Pattern.findall html_content) eqn:Hf;
      apply (anchor_loop_NoDup _ _ _ _ _ Hcoll); [constructor | exact Hnd]. }
  split; [exact Hlinks |].
  unfold _extract_direct_links_from_html. rewrite Hcoll.
  eexists. split; [reflexivity |].
  apply NoDup_Permutation; [exact Hlinks | apply list_of_set_NoDup |].
  intros u. now rewrite list_of_set_In.
Qed.

Lemma collected_links_distinct_witness :
  NoDup [Sample.artifact; "https://mcpedl.org/files/app.apk"]
  /\ exists r,
       _extract_direct_links_from_html Sample.libs Sample.reversed
         Sample.page_both Sample.page_url = Ret r
       /\ Permutation [Sample.artifact; "https://mcpedl.org/files/app.apk"] r.
Proof.
  apply (collected_links_distinct Sample.libs Sample.reversed
           Sample.page_both Sample.page_url
           [Sample.artifact; "https://mcpedl.org/files/app.apk"]).
  - vm_compute. reflexivity.
  - vm_compute. constructor; [intros [] | constructor].
Defined.

(** Every [.apk] anchor was joined when the loop returns. *)
Lemma anchor_loop_joined (L : Libs) (base_url : string)
      (hrefs links result : list string) (href : string) :
  anchor_loop L base_url hrefs links = Ret result ->
  In href hrefs -> PyStr.endswith href ".apk" = true ->
  exists u, urljoin L base_url href = Ret u.
Proof.
  revert links. induction hrefs as [|h rest IH]; intros links Hloop Hin Hend.
  - destruct Hin.
  - cbn [anchor_loop] in Hloop. destruct Hin as [-> | Hin].
    + rewrite Hend in Hloop.
      destruct (urljoin L base_url href) as [u | e];
        [now exists u | discriminate Hloop].
    + destruct (PyStr.endswith h ".apk");
        [destruct (urljoin L base_url h) as [full_url | e];
           [destruct (PyStr.mem full_url links); cbn [negb] in Hloop
           | discriminate Hloop] |];
        now apply (IH _ Hloop).
Qed.

(** Without any [.apk] anchor the loop returns what it was given. *)
Lemma anchor_loop_no_apk (L : Libs) (base_url : string)
      (hrefs links : list string) :
  (forall href, In href hrefs -> PyStr.endswith href ".apk" = false) ->
  anchor_loop L base_url hrefs links = Ret links.
Proof.
  induction hrefs as [|h rest IH]; intros Hnone; [reflexivity |].
  cbn [anchor_loop]. rewrite (Hnone h (or_introl eq_refl)).
  apply IH. intros href Hin. apply Hnone. now right.
Qed.

(** X4.  The scan comes back with the empty list exactly when the parser
    accepted the markup, the pattern finds nothing in it and no anchor of
    the page has an [href] ending in [.apk]. *)
Theorem extract_empty_iff (L : Libs) (H : HashOrder)
        (html_content base_url : string) :
  _extract_direct_links_from_html L H html_content base_url = Ret []
  <-> exists hrefs,
        a_hrefs L html_content = Ret hrefs
        /\ Pattern.findall html_content = []
        /\ forall href, In href hrefs -> PyStr.endswith href ".apk" = false.
Proof.
  split.
  - intros Hempty.
    assert (Hnone : forall u,
              ~ (In u (Pattern.findall html_content)
                 \/ anchor_derived L html_content base_url u)).
    { intros u Hu. apply (extract_In L H _ _ _ u Hempty) in Hu. destruct Hu. }
    destruct (extract_collected L H _ _ _ Hempty) as [links [Hcoll _]].
    unfold collected_links in Hcoll.
    destruct (a_hrefs L html_content) as [hrefs | e] eqn:Hparse;
      [| discriminate Hcoll].
    exists hrefs. split; [reflexivity |]. split.
    + destruct (Pattern.findall html_content) as [|m ms];
        [reflexivity |].
      exfalso. apply (Hnone m). left. now left.
    + intros href Hin.
      destruct (PyStr.endswith href ".apk") eqn:Hend; [| reflexivity].
      exfalso.
      destruct (anchor_loop_joined _ _ _ _ _ href Hcoll Hin Hend) as [u Hu].
      apply (Hnone u). right. exists hrefs, href. repeat split; assumption.
  - intros [hrefs [Hparse [Hf Hanchors]]].
    unfold _extract_direct_links_from_html, collected_links.
    rewrite Hparse, Hf. cbv zeta.
    rewrite (anchor_loop_no_apk L base_url hrefs [] Hanchors).
    destruct (list_of_set H []) as [|u us] eqn:Hset; [reflexivity |].
    exfalso. apply (list_of_set_In H [] u). rewrite Hset. now left.
Qed.

Lemma lower_startswith (s p : string) :
  PyStr.startswith s p = true ->
  PyStr.startswith (PyStr.lower s) (PyStr.lower p) = true.
Proof.
  revert s. induction p as [|a p IH]; intros s Hp;
    [apply startswith_nil |].
  destruct s as [|b s]; [discriminate Hp |].
  rewrite startswith_cons in Hp. apply andb_true_iff in Hp.
  destruct Hp as [Hab Hp]. apply Ascii.eqb_eq in Hab. subst b.
  cbn [PyStr.lower]. rewrite startswith_cons, Ascii.eqb_refl.
  now apply IH.
Qed.

Lemma lower_contains (s p : string) :
  PyStr.contains s p = true ->
  PyStr.contains (PyStr.lower s) (PyStr.lower p) = true.
Proof.
  induction s as [|c s IH]; intros Hc.
  - cbn [PyStr.contains] in Hc. rewrite orb_false_r in Hc.
    apply startswith_contains. now apply (lower_startswith "" p).
  - rewrite contains_cons in Hc. apply orb_true_iff in Hc.
    cbn [PyStr.lower]. rewrite contains_cons.
    destruct Hc as [Hc | Hc].
    + apply (lower_startswith (String c s) p) in Hc.
      cbn [PyStr.lower] in Hc. now rewrite Hc.
    + rewrite (IH Hc). apply orb_true_r.
Qed.

(** X5.  The countdown test does not look at the case of letters: a page
    text that holds one of the four words in any mix of upper and lower case
    is a countdown page. *)
Theorem timer_detected_whatever_the_case (page_text spelled : string) :
  In (PyStr.lower spelled) timer_words ->
  PyStr.contains page_text spelled = true ->
  timer_detected (PyStr.lower page_text) = true.
Proof.
  intros Hword Hin. unfold timer_detected. apply existsb_exists.
  exists (PyStr.lower spelled). split; [exact Hword |].
  now apply lower_contains.
Qed.

Lemma timer_detected_whatever_the_case_witness :
  timer_detected (PyStr.lower "Download starts after the CountDown") = true.
Proof.
  apply (timer_detected_whatever_the_case
           "Download starts after the CountDown" "CountDown").
  - vm_compute. right. left. reflexivity.
  - vm_compute. reflexivity.
Defined.

Lemma extract_empty_iff_witness :
  _extract_direct_links_from_html Sample.libs Sample.first_seen
    Sample.page_plain Sample.page_url = Ret [].
Proof.
  apply (proj2 (extract_empty_iff Sample.libs Sample.first_seen
                  Sample.page_plain Sample.page_url)).
  exists []. split; [vm_compute; reflexivity |].
  split; [vm_compute; reflexivity |]. intros href [].
Defined.

(* ===================================================================== *)
(** ** More on the plain-fetch method *)
(* ===================================================================== *)

(** X6.  A first page whose scan returns a candidate ends the plain-fetch
    method at once, with the first element of the scan's list, after one
    request; the page text is not looked at, so countdown words on the page
    cause no wait. *)
Theorem requests_link_found_immediately (L : Libs) (H : HashOrder) (W : World)
        (s : State) (url : string) (r1 : Response) (u : string)
        (others : list string) :
  http_get W (gets s) url = Ret r1 ->
  http_error r1 = false ->
  _extract_direct_links_from_html L H (text r1) url = Ret (u :: others) ->
  _get_download_link_requests L H W url s
  = (Ret (Some u), tick_gets s,
     [EvPrint Stdout "⚙️ Using requests/BeautifulSoup method (Termux friendly)";
      EvHttpGet url 15;
      EvPrint Stdout "✅ Found direct link immediately."]).
Proof.
  intros Hget Hok Hscan.
  unfold _get_download_link_requests. run.
  rewrite Hget, (raise_for_status_ok r1 Hok). run.
  rewrite Hscan. reflexivity.
Qed.

Lemma requests_link_found_immediately_witness :
  timer_detected
    (PyStr.lower (Sample.get_text (Sample.page_wait ++ Sample.page_direct)))
  = true
  /\ _get_download_link_requests Sample.libs Sample.first_seen
       (Sample.served
          (Ret (Sample.ok (Sample.page_wait ++ Sample.page_direct)))
          (Ret (Sample.ok Sample.page_plain)))
       Sample.page_url start
     = (Ret (Some Sample.artifact), tick_gets start,
        [EvPrint Stdout "⚙️ Using requests/BeautifulSoup method (Termux friendly)";
         EvHttpGet Sample.page_url 15;
         EvPrint Stdout "✅ Found direct link immediately."]).
Proof.
  split; [vm_compute; reflexivity |].
  exact (requests_link_found_immediately Sample.libs Sample.first_seen
           (Sample.served
              (Ret (Sample.ok (Sample.page_wait ++ Sample.page_direct)))
              (Ret (Sample.ok Sample.page_plain)))
           start Sample.page_url
           (Sample.ok (Sample.page_wait ++ Sample.page_direct))
           Sample.artifact [] eq_refl eq_refl eq_refl).
Defined.

(** X7.  When the first request itself raises, the plain-fetch method makes
    no other request and does not wait.  A [RequestException] is reported as
    a network error and any other [Exception] as an error of the method, both
    giving not-found; an interrupt or a [SystemExit] is not caught and leaves
    the method as it came. *)
Theorem requests_first_fetch_raises (L : Libs) (H : HashOrder) (W : World)
        (s : State) (url : string) (e : exn) :
  http_get W (gets s) url = Raise e ->
  _get_download_link_requests L H W url s
  = if is_RequestException e then
      (Ret None, tick_gets s,
       [EvPrint Stdout "⚙️ Using requests/BeautifulSoup method (Termux friendly)";
        EvHttpGet url 15;
        EvPrint Stdout ("❌ Network error: " ++ exn_str e)])
    else if is_Exception e then
      (Ret None, tick_gets s,
       [EvPrint Stdout "⚙️ Using requests/BeautifulSoup method (Termux friendly)";
        EvHttpGet url 15;
        EvPrint Stdout
          ("❌ An error occurred in the requests method: " ++ exn_str e)])
    else
      (Raise e, tick_gets s,
       [EvPrint Stdout "⚙️ Using requests/BeautifulSoup method (Termux friendly)";
        EvHttpGet url 15]).
Proof.
  intros Hget. unfold _get_download_link_requests. run. rewrite Hget.
  destruct (is_RequestException e); [reflexivity |].
  destruct (is_Exception e); reflexivity.
Qed.

Lemma requests_first_fetch_raises_witness :
  _get_download_link_requests Sample.libs Sample.first_seen
    (Sample.served (Raise (RequestException "Connection refused"))
                   (Ret (Sample.ok Sample.page_direct)))
    Sample.page_url start
  = (Ret None, tick_gets start,
     [EvPrint Stdout "⚙️ Using requests/BeautifulSoup method (Termux friendly)";
      EvHttpGet Sample.page_url 15;
      EvPrint Stdout "❌ Network error: Connection refused"]).
Proof.
  exact (requests_first_fetch_raises Sample.libs Sample.first_seen
           (Sample.served (Raise (RequestException "Connection refused"))
                          (Ret (Sample.ok Sample.page_direct)))
           start Sample.page_url (RequestException "Connection refused")
           eq_refl).
Defined.

(** X8.  On a countdown page, when the request made after the wait raises,
    the method stops there: an [Exception] gives not-found, anything else
    propagates, and in both cases the run holds the first request, the sleep
    of 12 and that one failed request, nothing more. *)
Theorem requests_refetch_raises (L : Libs) (H : HashOrder) (W : World)
        (s : State) (url : string) (r1 : Response) (page_text : string)
        (e : exn) :
  http_get W (gets s) url = Ret r1 ->
  http_error r1 = false ->
  _extract_direct_links_from_html L H (text r1) url = Ret [] ->
  get_text L (text r1) = Ret page_text ->
  timer_detected (PyStr.lower page_text) = true ->
  sleep W (sleeps s) 12 = Ret tt ->
  http_get W (S (gets s)) url = Raise e ->
  let '(r, s', tr) := _get_download_link_requests L H W url s in
  r = (if is_Exception e then Ret None else Raise e)
  /\ actions tr = [EvHttpGet url 15; EvSleep 12; EvHttpGet url 15]
  /\ gets s' = 2 + gets s.
Proof.
  intros Hget Hok Hscan Htext Htimer Hsleep Hget2.
  unfold _get_download_link_requests. run.
  rewrite Hget, (raise_for_status_ok r1 Hok). run.
  rewrite Hscan, Htext, Htimer. run.
  rewrite Hsleep. run. rewrite Hget2.
  destruct e; cbn [is_RequestException is_Exception]; repeat split.
Qed.

Lemma requests_refetch_raises_witness :
  let '(r, s', tr) :=
    _get_download_link_requests Sample.libs Sample.first_seen
      (Sample.served (Ret (Sample.ok Sample.page_wait))
                     (Raise (RequestException "Read timed out")))
      Sample.page_url start in
  r = Ret None
  /\ actions tr = [EvHttpGet Sample.page_url 15; EvSleep 12;
                   EvHttpGet Sample.page_url 15]
  /\ gets s' = 2.
Proof.
  exact (requests_refetch_raises Sample.libs Sample.first_seen
           (Sample.served (Ret (Sample.ok Sample.page_wait))
                          (Raise (RequestException "Read timed out")))
           start Sample.page_url (Sample.ok Sample.page_wait)
           (Sample.get_text Sample.page_wait)
           (RequestException "Read timed out")
           eq_refl eq_refl eq_refl eq_refl eq_refl eq_refl eq_refl).
Defined.

(** The actions of the plain-fetch method, whatever the world answers. *)
Lemma requests_actions_prefix (L : Libs) (H : HashOrder) (W : World)
      (s : State) (url : string) :
  let '(_, s', tr) := _get_download_link_requests L H W url s in
  exists k,
    1 <= k <= 3
    /\ actions tr = firstn k [EvHttpGet url 15; EvSleep 12; EvHttpGet url 15]
    /\ gets s' <= 2 + gets s
    /\ sleeps s' <= 1 + sleeps s.
Proof.
  unfold _get_download_link_requests, raise_for_status.
  cases_of_run.
  all: cbn [actions gets sleeps tick_gets tick_sleeps].
  all: first
    [ exists 1; cbn [firstn]; repeat split; (reflexivity || lia)
    | exists 2; cbn [firstn]; repeat split; (reflexivity || lia)
    | exists 3; cbn [firstn]; repeat split; (reflexivity || lia) ].
Qed.

(** X9.  Whatever the server and the clock do, the plain-fetch method makes
    at most two requests, both for the URL it was given and with a timeout of
    15, with at most one sleep, of 12, between them: its actions are always
    a non-empty prefix of request, sleep, request. *)
Theorem requests_at_most_one_retry (L : Libs) (H : HashOrder) (W : World)
        (s : State) (url : string) :
  let '(_, s', tr) := _get_download_link_requests L H W url s in
  exists k,
    1 <= k <= 3
    /\ actions tr = firstn k [EvHttpGet url 15; EvSleep 12; EvHttpGet url 15]
    /\ gets s' <= 2 + gets s
    /\ sleeps s' <= 1 + sleeps s.
Proof. exact (requests_actions_prefix L H W s url). Qed.

Lemma http_error_split (r : Response) :
  http_error r
  = (((400 <=? status_code r) && (status_code r <? 500))
     || ((500 <=? status_code r) && (status_code r <? 600)))%nat.
Proof.
  unfold http_error.
  destruct (Nat.leb_spec 400 (status_code r)),
           (Nat.ltb_spec (status_code r) 500),
           (Nat.leb_spec 500 (status_code r)),
           (Nat.ltb_spec (status_code r) 600);
    cbn [andb orb]; try reflexivity; lia.
Qed.

(** X10.  A link returned by the plain-fetch method is never made up: it is
    a member of the list a scan returned for a body the server really sent,
    either the first response, which then had no error status, or the
    response to the request made after the wait. *)
Theorem requests_returns_a_scanned_link (L : Libs) (H : HashOrder) (W : World)
        (s : State) (url u : string) :
  fst (fst (_get_download_link_requests L H W url s)) = Ret (Some u) ->
  exists r links,
    _extract_direct_links_from_html L H (text r) url = Ret links
    /\ In u links
    /\ ((http_get W (gets s) url = Ret r /\ http_error r = false)
        \/ http_get W (S (gets s)) url = Ret r).
Proof.
  unfold _get_download_link_requests, raise_for_status.
  cases_of_run.
  all: cbn [fst]; intros Hret; try discriminate Hret.
  all: injection Hret as <-.
  all: match goal with
       | Hscan : _extract_direct_links_from_html _ _ (text ?r) _
                 = Ret (?u :: ?l) |- _ =>
           exists r, (u :: l); split; [exact Hscan |];
           split; [now left |]
       end.
  all: first
    [ right; reflexivity
    | left; split; [reflexivity |];
      rewrite http_error_split;
      repeat match goal with
        | Hb : (_ <=? _)%nat = _ |- _ => rewrite Hb; clear Hb
        | Hb : (_ <? _)%nat = _ |- _ => rewrite Hb; clear Hb
        end; reflexivity ].
Qed.

Lemma requests_returns_a_scanned_link_witness :
  exists r links,
    _extract_direct_links_from_html Sample.libs Sample.first_seen
      (text r) Sample.page_url = Ret links
    /\ In "https://mcpedl.org/files/app.apk" links
    /\ ((Ret (Sample.ok Sample.page_wait) = Ret r /\ http_error r = false)
        \/ Ret (Sample.ok Sample.page_after_wait) = Ret r).
Proof.
  exact (requests_returns_a_scanned_link Sample.libs Sample.first_seen
           (Sample.served (Ret (Sample.ok Sample.page_wait))
                          (Ret (Sample.ok Sample.page_after_wait)))
           start Sample.page_url "https://mcpedl.org/files/app.apk" eq_refl).
Defined.

(* ===================================================================== *)
(** ** More on the browser path *)
(* ===================================================================== *)

(** X11.  Once Chrome has started, the browser method never falls back to
    plain requests: whatever happens next it loads the page once, through the
    driver, sends no HTTP request of its own, keeps the driver for [main] to
    close, lets no [Exception] escape, and a link it returns belongs to the
    scan of the rendered page.  In particular a failing [driver.get] gives
    not-found. *)
Theorem selenium_no_fallback_once_started (L : Libs) (H : HashOrder)
        (W : World) (s : State) (url : string) :
  use_selenium s = true ->
  driver s = None ->
  import_selenium W = Ret tt ->
  chrome_start W = Ret tt ->
  let '(r, s', tr) := _get_download_link_selenium L H W url s in
  driver s' = Some Chrome
  /\ page_loads tr = [url]
  /\ In (EvDriverGet url) tr
  /\ (forall e, r = Raise e -> is_Exception e = false)
  /\ (forall e, driver_get W url = Raise e -> is_Exception e = true ->
                r = Ret None)
  /\ (forall u, r = Ret (Some u) ->
        exists page links,
          page_source W = Ret page
          /\ _extract_direct_links_from_html L H page url = Ret links
          /\ In u links).
Proof.
  intros Hreq Hdrv Himp Hchrome.
  unfold _get_download_link_selenium, setup_driver.
  rewrite Himp. run. rewrite Hdrv. run. rewrite Hchrome. run.
  rewrite Hreq. cases_of_run.
  all: cbn [page_loads In].
  all: repeat split; try (intros e' [=]; subst; reflexivity);
       try (intros e' [=]; subst; intros; congruence);
       try (intros u' [=]; subst); auto 6.
  all: try (intros; discriminate).
  all: try match goal with
       | Hscan : _extract_direct_links_from_html _ _ ?page _
                 = Ret (?u :: ?l) |- _ =>
           exists page, (u :: l);
           split; [reflexivity | split; [exact Hscan | now left]]
       end.
Qed.

Lemma selenium_no_fallback_once_started_witness :
  let '(r, s', tr) :=
    _get_download_link_selenium Sample.libs Sample.first_seen
      (Sample.browsing Sample.page_plain (fun _ => Ret tt)
                       (Ret (Sample.ok Sample.page_direct)))
      Sample.page_url (set_use_selenium true start) in
  r = Ret None /\ driver s' = Some Chrome /\ page_loads tr = [Sample.page_url].
Proof.
  pose proof (selenium_no_fallback_once_started Sample.libs Sample.first_seen
                (Sample.browsing Sample.page_plain (fun _ => Ret tt)
                                 (Ret (Sample.ok Sample.page_direct)))
                (set_use_selenium true start) Sample.page_url
                eq_refl eq_refl eq_refl eq_refl) as Hrun.
  destruct (_get_download_link_selenium Sample.libs Sample.first_seen
              (Sample.browsing Sample.page_plain (fun _ => Ret tt)
                               (Ret (Sample.ok Sample.page_direct)))
              Sample.page_url (set_use_selenium true start))
    as [[r s'] tr] eqn:Heq.
  destruct Hrun as [Hd [Hloads _]].
  split; [| split; assumption].
  vm_compute in Heq. congruence.
Defined.

(** X12.  An import of Selenium that fails with something else than
    [ImportError] is not treated as a missing library: the browser method
    reports its own failure and returns not-found, without falling back to
    plain requests and without switching [use_selenium] off. *)
Theorem selenium_import_crash_no_fallback (L : Libs) (H : HashOrder)
        (W : World) (s : State) (url : string) (msg : string) :
  import_selenium W = Raise (OtherException msg) ->
  _get_download_link_selenium L H W url s
  = (Ret None, s,
     [EvImportSelenium;
      EvPrint Stdout ("❌ Selenium method failed: " ++ msg)]).
Proof.
  intros Himp. unfold _get_download_link_selenium, setup_driver.
  rewrite Himp. reflexivity.
Qed.

(** X13.  The driver is created lazily and once: calling [setup_driver]
    again after it succeeded imports Selenium again but starts no second
    Chrome and leaves the extractor as it is. *)
Theorem setup_driver_starts_chrome_once (W : World) (s : State) :
  driver s = None ->
  import_selenium W = Ret tt ->
  chrome_start W = Ret tt ->
  bind (setup_driver W) (fun _ => setup_driver W) s
  = (Ret tt, set_driver (Some Chrome) s,
     [EvImportSelenium; EvChromeStart;
      EvPrint Stdout "✅ Selenium WebDriver initialized";
      EvImportSelenium]).
Proof.
  intros Hdrv Himp Hchrome. unfold setup_driver.
  rewrite Himp. run. rewrite Hdrv. run. rewrite Hchrome. reflexivity.
Qed.

(** X14.  What a second call of [close_driver] does depends on how the
    first ended.  After a call that returned, the extractor holds no driver
    and a second call does nothing.  A call can only raise through
    [driver.quit()]; the driver then stays recorded, and a second call calls
    [quit] again. *)
Theorem close_driver_second_call (W : World) (s : State) :
  let '(r1, s1, t1) := close_driver W s in
  (r1 = Ret tt ->
     driver s1 = None /\ close_driver W s1 = (Ret tt, s1, []))
  /\ (forall e, r1 = Raise e ->
         driver_quit W = Raise e
         /\ s1 = s
         /\ t1 = [EvDriverQuit]
         /\ driver s1 = Some Chrome
         /\ close_driver W s1 = (Raise e, s1, [EvDriverQuit])).
Proof.
  unfold close_driver. run.
  destruct (driver s) as [[] |] eqn:Hd; run.
  - destruct (driver_quit W) as [[] | e0] eqn:Hquit; run.
    + split; [intros _; split; reflexivity | intros e He; discriminate He].
    + split; [intros He; discriminate He |].
      intros e He. injection He as <-.
      rewrite Hd. run. repeat split.
  - split; [| intros e He; discriminate He].
    intros _. split; [exact Hd |]. rewrite Hd. reflexivity.
Qed.

Lemma selenium_import_crash_no_fallback_witness :
  _get_download_link_selenium Sample.libs Sample.first_seen
    {| http_get := fun _ _ => Ret (Sample.ok Sample.page_direct);
       sleep := fun _ _ => Ret tt;
       import_selenium := Raise (OtherException "cannot import name 'webdriver'");
       chrome_start := Ret tt;
       driver_get := fun _ => Ret tt;
       page_source := Ret Sample.page_direct;
       driver_quit := Ret tt |}
    Sample.page_url (set_use_selenium true start)
  = (Ret None, set_use_selenium true start,
     [EvImportSelenium;
      EvPrint Stdout "❌ Selenium method failed: cannot import name 'webdriver'"]).
Proof.
  exact (selenium_import_crash_no_fallback Sample.libs Sample.first_seen
           {| http_get := fun _ _ => Ret (Sample.ok Sample.page_direct);
              sleep := fun _ _ => Ret tt;
              import_selenium :=
                Raise (OtherException "cannot import name 'webdriver'");
              chrome_start := Ret tt;
              driver_get := fun _ => Ret tt;
              page_source := Ret Sample.page_direct;
              driver_quit := Ret tt |}
           (set_use_selenium true start) Sample.page_url
           "cannot import name 'webdriver'" eq_refl).
Defined.

Lemma setup_driver_starts_chrome_once_witness :
  bind (setup_driver (Sample.browsing Sample.page_plain (fun _ => Ret tt)
                        (Ret (Sample.ok Sample.page_plain))))
       (fun _ => setup_driver (Sample.browsing Sample.page_plain
                                 (fun _ => Ret tt)
                                 (Ret (Sample.ok Sample.page_plain))))
       start
  = (Ret tt, set_driver (Some Chrome) start,
     [EvImportSelenium; EvChromeStart;
      EvPrint Stdout "✅ Selenium WebDriver initialized";
      EvImportSelenium]).
Proof.
  exact (setup_driver_starts_chrome_once
           (Sample.browsing Sample.page_plain (fun _ => Ret tt)
                            (Ret (Sample.ok Sample.page_plain)))
           start eq_refl eq_refl eq_refl).
Defined.

Lemma close_driver_second_call_witness :
  close_driver (Sample.browsing Sample.page_plain (fun _ => Ret tt)
                  (Ret (Sample.ok Sample.page_plain)))
    (set_driver None (set_driver (Some Chrome) start))
  = (Ret tt, set_driver None (set_driver (Some Chrome) start), [])
  /\ close_driver
       {| http_get := fun _ _ => Ret (Sample.ok Sample.page_plain);
          sleep := fun _ _ => Ret tt;
          import_selenium := Ret tt;
          chrome_start := Ret tt;
          driver_get := fun _ => Ret tt;
          page_source := Ret Sample.page_plain;
          driver_quit := Raise (OtherException "chrome not reachable") |}
       (set_driver (Some Chrome) start)
     = (Raise (OtherException "chrome not reachable"),
        set_driver (Some Chrome) start, [EvDriverQuit]).
Proof.
  split.
  - exact (proj2 (proj1 (close_driver_second_call
                           (Sample.browsing Sample.page_plain (fun _ => Ret tt)
                              (Ret (Sample.ok Sample.page_plain)))
                           (set_driver (Some Chrome) start)) eq_refl)).
  - exact (proj2 (proj2 (proj2 (proj2
             (proj2 (close_driver_second_call
                       {| http_get := fun _ _ => Ret (Sample.ok Sample.page_plain);
                          sleep := fun _ _ => Ret tt;
                          import_selenium := Ret tt;
                          chrome_start := Ret tt;
                          driver_get := fun _ => Ret tt;
                          page_source := Ret Sample.page_plain;
                          driver_quit :=
                            Raise (OtherException "chrome not reachable") |}
                       (set_driver (Some Chrome) start))
                    (OtherException "chrome not reachable") eq_refl))))).
Defined.

(* ===================================================================== *)
(** ** More on [main] *)
(* ===================================================================== *)

(** X15.  [main] reads the program name, the URL and one flag: whatever
    follows the third element of [sys.argv] changes nothing to the run. *)
Theorem main_ignores_extra_arguments (L : Libs) (H : HashOrder) (W : World)
        (argv : list string) :
  run_program L H W argv = run_program L H W (firstn 3 argv).
Proof.
  destruct argv as [|prog [|url [|flag rest]]]; reflexivity.
Qed.

Lemma actions_app (t1 t2 : list event) :
  actions (t1 ++ t2) = (actions t1 ++ actions t2)%list.
Proof.
  induction t1 as [|ev t1 IH]; [reflexivity |].
  destruct ev; cbn [app actions]; now rewrite IH.
Qed.

Lemma selenium_flag_absent (flag : string) :
  flag <> "-s" -> flag <> "--selenium" ->
  PyStr.mem flag ["-s"; "--selenium"] = false.
Proof.
  intros Hs Hsel. apply mem_false. intros [Heq | [Heq | []]];
    [apply Hs | apply Hsel]; now symmetry.
Qed.

(** X16.  Without [-s] or [--selenium] as third argument the program never
    imports Selenium and never starts, drives or quits a browser: all it does
    besides printing is at most a request, a sleep of 12 and a second
    request, for the URL of the command line. *)
Theorem main_default_path_no_browser (L : Libs) (H : HashOrder) (W : World)
        (argv : list string) :
  nth 2 argv "" <> "-s" ->
  nth 2 argv "" <> "--selenium" ->
  let '(_, s, tr) := run_program L H W argv in
  driver s = None
  /\ exists k,
       k <= 3
       /\ actions tr
          = firstn k [EvHttpGet (nth 1 argv "") 15; EvSleep 12;
                      EvHttpGet (nth 1 argv "") 15].
Proof.
  intros Hs Hsel.
  unfold run_program, main, __init__, get_download_link, close_driver,
    link_truthy, start.
  rewrite (selenium_flag_absent _ Hs Hsel), andb_false_r.
  cases_of_run.
  all: try (split; [reflexivity | exists 0; split; [lia | reflexivity]]).
  all: repeat match goal with
       | Hrun : _get_download_link_requests ?L ?H ?W ?url ?st = (_, _, _) |- _ =>
           pose proof (requests_frame L H W st url) as Hframe;
           pose proof (requests_actions_prefix L H W st url) as Hprefix;
           rewrite Hrun in Hframe, Hprefix; clear Hrun;
           destruct Hframe as [_ [Hframe _]];
           destruct Hprefix as [k [[_ Hk] [Hprefix _]]];
           cbn [driver set_driver set_use_selenium] in Hframe
       end.
  all: try congruence.
  all: split; [assumption || reflexivity |].
  all: exists k; split; [exact Hk |].
  all: cbn [actions]; rewrite ?actions_app; cbn [actions];
       rewrite ?app_nil_r; exact Hprefix.
Qed.

Lemma main_default_path_no_browser_witness :
  let '(_, s, tr) :=
    run_program Sample.libs Sample.first_seen
      (Sample.browsing Sample.page_direct (fun _ => Ret tt)
                       (Ret (Sample.ok Sample.page_wait)))
      ["mcpe_downloader.py"; Sample.page_url; "--Selenium"] in
  driver s = None
  /\ exists k,
       k <= 3
       /\ actions tr
          = firstn k [EvHttpGet Sample.page_url 15; EvSleep 12;
                      EvHttpGet Sample.page_url 15].
Proof.
  apply (main_default_path_no_browser Sample.libs Sample.first_seen
           (Sample.browsing Sample.page_direct (fun _ => Ret tt)
                            (Ret (Sample.ok Sample.page_wait)))
           ["mcpe_downloader.py"; Sample.page_url; "--Selenium"]);
    discriminate.
Defined.

Lemma main_success_stdout_witness :
  exists link s1 t1 rest,
    get_download_link Sample.libs Sample.first_seen
      (Sample.served (Ret (Sample.ok Sample.page_wait))
                     (Ret (Sample.ok Sample.page_after_wait)))
      Sample.page_url
      (constructed ["mcpe_downloader.py"; Sample.page_url])
    = (Ret (Some link), s1, t1)
    /\ link <> ""
    /\ lines_on Stdout t1 = ("🔍 Analyzing: " ++ Sample.page_url) :: rest
    /\ lines_on Stdout
         (snd (run_program Sample.libs Sample.first_seen
                 (Sample.served (Ret (Sample.ok Sample.page_wait))
                                (Ret (Sample.ok Sample.page_after_wait)))
                 ["mcpe_downloader.py"; Sample.page_url]))
       = (lines_on Stdout t1 ++ [link])%list.
Proof.
  pose proof (main_success_stdout Sample.libs Sample.first_seen
                (Sample.served (Ret (Sample.ok Sample.page_wait))
                               (Ret (Sample.ok Sample.page_after_wait)))
                ["mcpe_downloader.py"; Sample.page_url]) as Hout.
  rewrite scenario_countdown in *. exact (Hout eq_refl).
Defined.

(** X18.  An interrupt that arrives during the first request is not taken
    for a failed extraction: it passes the handlers of the plain-fetch method
    and of [get_download_link], [main] prints its notice on the error stream
    and exits with status 1; no other request is made and nothing but the two
    progress lines reached standard output. *)
Theorem main_interrupted_during_first_request (L : Libs) (H : HashOrder)
        (W : World) (prog url : string) :
  PyStr.startswith url "http" = true ->
  http_get W 0 url = Raise KeyboardInterrupt ->
  run_program L H W [prog; url]
  = (Raise (SystemExit 1), tick_gets start,
     [EvPrint Stdout ("🔍 Analyzing: " ++ url);
      EvPrint Stdout "⚙️ Using requests/BeautifulSoup method (Termux friendly)";
      EvHttpGet url 15;
      EvPrint Stderr (String (ascii_of_nat 10) "⏹️ Process interrupted by user.")]).
Proof.
  intros Hhttp Hget.
  unfold run_program, main, __init__, get_download_link,
    _get_download_link_requests, close_driver, start.
  cbn [List.length Nat.ltb Nat.leb nth]. rewrite Hhttp. run.
  rewrite Hget. reflexivity.
Qed.

Lemma main_interrupted_during_first_request_witness :
  run_program Sample.libs Sample.first_seen
    (Sample.served (Raise KeyboardInterrupt) (Ret (Sample.ok Sample.page_direct)))
    ["mcpe_downloader.py"; Sample.page_url]
  = (Raise (SystemExit 1), tick_gets start,
     [EvPrint Stdout ("🔍 Analyzing: " ++ Sample.page_url);
      EvPrint Stdout "⚙️ Using requests/BeautifulSoup method (Termux friendly)";
      EvHttpGet Sample.page_url 15;
      EvPrint Stderr (String (ascii_of_nat 10) "⏹️ Process interrupted by user.")]).
Proof.
  exact (main_interrupted_during_first_request Sample.libs Sample.first_seen
           (Sample.served (Raise KeyboardInterrupt)
                          (Ret (Sample.ok Sample.page_direct)))
           "mcpe_downloader.py" Sample.page_url eq_refl eq_refl).
Defined.




